(** * check_trex: a Nagios check for the T-Rex miner

    A shallow embedding of [check_trex.py]: the probe that turns the JSON
    summary of the miner into metrics, the contexts that turn a metric
    into a result, the summary line, and [main] with its top-level
    exception handler.

    The program is a client of two libraries, [requests] and
    [nagiosplugin].  The HTTP exchange is the environment: the network
    is a field of the [World] a run takes place in.  The parts of
    [nagiosplugin] the program relies on (service states, [Range],
    [ScalarContext], the results, the state and the exit code of a
    [Check]) are embedded from the library, each under a comment that
    says so.

    Left out: logging, the performance data, the name of the check and
    the state in front of the summary of the status line, the alarm
    [Check.main] sets for the run, and JSON numbers that are no
    integers. *)

From Stdlib Require Import ZArith String Ascii List Bool Lia DecimalString Permutation.
Import ListNotations.

Local Open Scope string_scope.
Local Open Scope Z_scope.

(** ** Python values and exceptions *)

(** What [r.json()] returns: the Python value of a JSON text.  A JSON
    object becomes a [dict] with string keys, kept here as an association
    list read from the left.  JSON numbers are the integers; floats are
    not modelled. *)
#[warnings="-register-all"]
Inductive pyval : Type :=
| PNone
| PBool (b : bool)
| PInt (z : Z)
| PStr (s : string)
| PList (l : list pyval)
| PDict (d : list (string * pyval)).

(** The exceptions the program can meet, all subclasses of [Exception]. *)
Inductive exn : Type :=
| TypeError
| KeyError (key : string)
| NameError (name : string)
| AttributeError
| ValueError
| ConnectionError
| Timeout
| HTTPError (status_code : Z)
| JSONDecodeError.

(** A computation that returns a value or raises. *)
Definition result (A : Type) : Type := (exn + A)%type.

Definition ret {A} (a : A) : result A := inr a.
Definition raise {A} (e : exn) : result A := inl e.
Definition bind {A B} (c : result A) (k : A -> result B) : result B :=
  match c with
  | inl e => inl e
  | inr a => k a
  end.

Notation "x <- c ;; k" := (bind c (fun x => k))
  (at level 61, c at next level, right associativity).

(** ** The operations of Python the program uses *)

Module Py.

(** [d.get(k)] on the association list: the first binding of [k]. *)
Fixpoint lookup (k : string) (d : list (string * pyval)) : option pyval :=
  match d with
  | [] => None
  | (k', v) :: d' => if String.eqb k k' then Some v else lookup k d'
  end.


(** [needle in hay] on strings: [needle] occurs in [hay]. *)
Fixpoint occurs (needle hay : string) : bool :=
  String.prefix needle hay
  || match hay with
     | EmptyString => false
     | String _ hay' => occurs needle hay'
     end.

Definition is_str (k : string) (v : pyval) : bool :=
  match v with
  | PStr s => String.eqb k s
  | _ => false
  end.

(** [k in v] for a string [k]: a key of a dict, an element of a list,
    a substring of a string; the other values are no containers. *)
Definition contains (k : string) (v : pyval) : result bool :=
  match v with
  | PDict d => ret (match lookup k d with Some _ => true | None => false end)
  | PList l => ret (existsb (is_str k) l)
  | PStr s => ret (occurs k s)
  | PNone | PBool _ | PInt _ => raise TypeError
  end.

(** [v[k]] for a string [k]. *)
Definition getitem (v : pyval) (k : string) : result pyval :=
  match v with
  | PDict d =>
      match lookup k d with
      | Some x => ret x
      | None => raise (KeyError k)
      end
  | _ => raise TypeError
  end.

(** [v.get(k)]: only a dict has the method. *)
Definition get (v : pyval) (k : string) : result pyval :=
  match v with
  | PDict d =>
      match lookup k d with
      | Some x => ret x
      | None => ret PNone
      end
  | _ => raise AttributeError
  end.

Fixpoint chars (s : string) : list pyval :=
  match s with
  | EmptyString => []
  | String c s' => PStr (String c EmptyString) :: chars s'
  end.

(** What [for x in v] runs through. *)
Definition iter (v : pyval) : result (list pyval) :=
  match v with
  | PList l => ret l
  | PDict d => ret (map (fun kv => PStr (fst kv)) d)
  | PStr s => ret (chars s)
  | PNone | PBool _ | PInt _ => raise TypeError
  end.

(** [l.append(x)]. *)
Definition append {A : Type} (l : list A) (x : A) : list A := (l ++ [x])%list.

(** [bool(v)]. *)
Definition truth (v : pyval) : bool :=
  match v with
  | PNone => false
  | PBool b => b
  | PInt z => negb (z =? 0)
  | PStr s => negb (String.eqb s "")
  | PList l => match l with [] => false | _ => true end
  | PDict d => match d with [] => false | _ => true end
  end.

(** [str(z)] of an int. *)
Definition str_int (z : Z) : string := NilZero.string_of_int (Z.to_int z).

(** The values Python orders against an int: an int, and a bool, which
    is the int 1 or 0.  With the number comes its [str]. *)
Definition number (v : pyval) : option (Z * string) :=
  match v with
  | PInt z => Some (z, str_int z)
  | PBool true => Some (1, "True")
  | PBool false => Some (0, "False")
  | _ => None
  end.

(** [v <= n], [v < n] and [v > n] against an int [n]. *)
Definition le (v : pyval) (n : Z) : result bool :=
  match number v with
  | Some (z, _) => ret (z <=? n)
  | None => raise TypeError
  end.

Definition lt (v : pyval) (n : Z) : result bool :=
  match number v with
  | Some (z, _) => ret (z <? n)
  | None => raise TypeError
  end.

Definition gt (v : pyval) (n : Z) : result bool :=
  match number v with
  | Some (z, _) => ret (z >? n)
  | None => raise TypeError
  end.

(** [bool(o)] of an optional int, as in [if self.critical and ...]:
    [None] and [0] are false. *)
Definition truth_opt (o : option Z) : bool :=
  match o with
  | None => false
  | Some z => negb (z =? 0)
  end.

End Py.

(** ** Metrics and the probe *)

(** [Metric(name, value, context=...)]. *)
Record Metric : Type := mkMetric {
  metric_name : string;
  metric_value : pyval;
  metric_context : string
}.

Module Trex.

(** The body of the loop [for gpu in data.get("gpus")], for one [gpu];
    [metrics] is the list so far.  The second branch binds
    [temperature] and then reads [memory_temperature], a name bound
    nowhere in the module: evaluating the f-string raises [NameError]. *)
Definition probe_gpu (metrics : list Metric) (gpu : pyval)
  : result (list Metric) :=
  name <- Py.getitem gpu "name" ;;
  id <- Py.getitem gpu "gpu_id" ;;
  has_t <- Py.contains "temperature" gpu ;;
  metrics <-
    (if has_t : bool then
       temperature <- Py.getitem gpu "temperature" ;;
       ret (Py.append metrics (mkMetric "temperature" temperature "temperature"))
     else ret metrics) ;;
  has_m <- Py.contains "memory_temperature" gpu ;;
  if has_m : bool then
    temperature <- Py.getitem gpu "memory_temperature" ;;
    raise (NameError "memory_temperature")
  else ret metrics.

Fixpoint probe_gpus (metrics : list Metric) (gpus : list pyval)
  : result (list Metric) :=
  match gpus with
  | [] => ret metrics
  | gpu :: rest =>
      metrics <- probe_gpu metrics gpu ;;
      probe_gpus metrics rest
  end.

(** The part of [Trex.probe] after [data = r.json()]. *)
Definition probe_data (data : pyval) : result (list Metric) :=
  let metrics := [] in
  has <- Py.contains "hashrate" data ;;
  metrics <-
    (if has : bool then
       hashrate <- Py.getitem data "hashrate" ;;
       ret (Py.append metrics (mkMetric "hashrate" hashrate "hashrate"))
     else ret metrics) ;;
  has <- Py.contains "success" data ;;
  metrics <-
    (if has : bool then
       v <- Py.getitem data "success" ;;
       let success := Py.truth v in
       ret (Py.append metrics (mkMetric "success" (PBool success) "success"))
     else ret metrics) ;;
  has <- Py.contains "paused" data ;;
  metrics <-
    (if has : bool then
       v <- Py.getitem data "paused" ;;
       let paused := Py.truth v in
       ret (Py.append metrics (mkMetric "paused" (PBool paused) "paused"))
     else ret metrics) ;;
  has <- Py.contains "uptime" data ;;
  metrics <-
    (if has : bool then
       uptime <- Py.getitem data "uptime" ;;
       _ <- Py.gt uptime 1 ;;
       ret (Py.append metrics (mkMetric "uptime" uptime "uptime"))
     else ret metrics) ;;
  gpus <- Py.get data "gpus" ;;
  gpus <- Py.iter gpus ;;
  probe_gpus metrics gpus.

(** What [requests.get] gives back: it raises (no connection, a
    timeout, ...) or returns a response, of which the program reads the
    status code, through [raise_for_status], and the body, through
    [json]; a body that is no JSON text makes [json] raise.  A response
    with the status 204 or 304 is read without a body, so it has no JSON
    text. *)
Inductive reply : Type :=
| NoResponse (e : exn)
| Response (status_code : Z) (json : option pyval).

(** [requests]' [Response.raise_for_status]: an [HTTPError] for the
    client errors 400..499 and the server errors 500..599. *)
Definition raise_for_status (status_code : Z) : result unit :=
  if (400 <=? status_code) && (status_code <? 600)
  then raise (HTTPError status_code)
  else ret tt.

Definition json (body : option pyval) : result pyval :=
  match body with
  | Some data => ret data
  | None => raise JSONDecodeError
  end.

Record t : Type := mk { url : string; timeout : Z }.

(** [Trex.probe]; [requests_get] is the network. *)
Definition probe (requests_get : string -> Z -> reply) (self : t)
  : result (list Metric) :=
  match requests_get (url self ++ "/summary") (timeout self) with
  | NoResponse e => raise e
  | Response status_code body =>
      _ <- raise_for_status status_code ;;
      data <- json body ;;
      probe_data data
  end.

End Trex.

(** ** Service states and results ([nagiosplugin.state], [nagiosplugin.result]) *)

(** [nagiosplugin.state]: [ServiceState(code, text)] with the four
    states [Ok], [Warn], [Critical], [Unknown]. *)
Inductive ServiceState : Type := Ok | Warn | Critical | Unknown.

Definition code (s : ServiceState) : Z :=
  match s with
  | Ok => 0
  | Warn => 1
  | Critical => 2
  | Unknown => 3
  end.

(** [str(state)]. *)
Definition text (s : ServiceState) : string :=
  match s with
  | Ok => "ok"
  | Warn => "warning"
  | Critical => "critical"
  | Unknown => "unknown"
  end.

(** [Result(state, hint, metric)]; the hint may be [None]. *)
Record Result : Type := mkResult {
  state : ServiceState;
  hint : option string;
  metric : Metric
}.

(** ** The contexts *)

Module BelowThresholdContext.

Record t : Type := mk {
  name : string;
  warning : option Z;
  critical : option Z
}.

(** The test [self.bound and metric.value <= self.bound] of [evaluate]
    together with the hint f"{metric.value}<={self.bound}" of the
    branch it guards: [Some hint] when the test holds.  A bound that is
    [None] or [0] is false, and the comparison is not evaluated. *)
Definition below (bound : option Z) (value : pyval) : result (option string) :=
  match bound with
  | None => ret None
  | Some b =>
      if Py.truth_opt bound then
        match Py.number value with
        | Some (z, shown) =>
            ret (if z <=? b then Some (shown ++ "<=" ++ Py.str_int b) else None)
        | None => raise TypeError
        end
      else ret None
  end.

Definition evaluate (self : t) (metric : Metric) : result Result :=
  c <- below (critical self) (metric_value metric) ;;
  match c with
  | Some h => ret (mkResult Critical (Some h) metric)
  | None =>
      w <- below (warning self) (metric_value metric) ;;
      match w with
      | Some h => ret (mkResult Warn (Some h) metric)
      | None => ret (mkResult Ok None metric)
      end
  end.

End BelowThresholdContext.

Module BooleanContext.

Record t : Type := mk {
  name : string;
  expected : bool;
  warning : bool;
  critical : bool
}.

(** [value is expected] for a bool [expected]: [True] and [False] are
    single objects, so the value is that very bool. *)
Definition is_ (value : pyval) (expected : bool) : bool :=
  match value with
  | PBool b => Bool.eqb b expected
  | _ => false
  end.

Definition str_bool (b : bool) : string := if b then "True" else "False".

Definition evaluate (self : t) (metric : Metric) : Result :=
  if negb (is_ (metric_value metric) (expected self)) then
    let result_type :=
      if critical self then Critical
      else if warning self then Warn
      else Ok in
    mkResult result_type
      (Some (metric_name metric ++ " is not " ++ str_bool (expected self)))
      metric
  else mkResult Ok None metric.

End BooleanContext.

(** [nagiosplugin.Range], for the int thresholds the program passes. *)
Module Range.

Inductive limit : Type := NegInf | Fin (z : Z) | PosInf.

Record t : Type := mk { invert : bool; start : limit; end_ : limit }.

(** [Range(spec)] for an int [spec].  [spec or ''] turns 0 into the
    empty specification, the range from 0 with no upper end; another
    int is the range from 0 to [spec], refused by [_verify] when the
    start is greater than the end. *)
Definition new (spec : Z) : result t :=
  if spec =? 0 then ret (mk false (Fin 0) PosInf)
  else if 0 >? spec then raise ValueError
  else ret (mk false (Fin 0) (Fin spec)).

Definition lt_limit (value : pyval) (l : limit) : result bool :=
  match l with
  | Fin z => Py.lt value z
  | NegInf => _ <- Py.lt value 0 ;; ret false
  | PosInf => _ <- Py.lt value 0 ;; ret true
  end.

Definition gt_limit (value : pyval) (l : limit) : result bool :=
  match l with
  | Fin z => Py.gt value z
  | NegInf => _ <- Py.gt value 0 ;; ret true
  | PosInf => _ <- Py.gt value 0 ;; ret false
  end.

(** [Range.match]: the value is inside the range (outside, for an
    inverted range). *)
Definition match_ (self : t) (value : pyval) : result bool :=
  below <- lt_limit value (start self) ;;
  if below : bool then ret (xorb false (invert self))
  else
    above <- gt_limit value (end_ self) ;;
    if above : bool then ret (xorb false (invert self))
    else ret (xorb true (invert self)).

(** [Range.violation]: "outside range " and the range written with
    its start. *)
Definition violation (self : t) : string :=
  "outside range "
  ++ (if invert self then "@" else "")
  ++ match start self with
     | NegInf => "~:"
     | Fin z => Py.str_int z ++ ":"
     | PosInf => "inf:"
     end
  ++ match end_ self with
     | PosInf => ""
     | Fin z => Py.str_int z
     | NegInf => "-inf"
     end.

End Range.

(** [nagiosplugin.ScalarContext]. *)
Module ScalarContext.

Record t : Type := mk {
  name : string;
  warning : Range.t;
  critical : Range.t
}.

(** [ScalarContext(name, warning=w, critical=c)]: both thresholds
    become ranges. *)
Definition new (name : string) (w c : Z) : result t :=
  warning <- Range.new w ;;
  critical <- Range.new c ;;
  ret (mk name warning critical).

Definition evaluate (self : t) (metric : Metric) : result Result :=
  inside <- Range.match_ (critical self) (metric_value metric) ;;
  if negb inside then
    ret (mkResult Critical (Some (Range.violation (critical self))) metric)
  else
    inside <- Range.match_ (warning self) (metric_value metric) ;;
    if negb inside then
      ret (mkResult Warn (Some (Range.violation (warning self))) metric)
    else ret (mkResult Ok None metric).

End ScalarContext.

(** The contexts a check is built from, as one type. *)
Inductive Context : Type :=
| Boolean (c : BooleanContext.t)
| BelowThreshold (c : BelowThresholdContext.t)
| Scalar (c : ScalarContext.t).

Definition context_name (c : Context) : string :=
  match c with
  | Boolean c => BooleanContext.name c
  | BelowThreshold c => BelowThresholdContext.name c
  | Scalar c => ScalarContext.name c
  end.

(** [context.evaluate(metric, resource)], by the class of the context. *)
Definition evaluate (c : Context) (metric : Metric) : result Result :=
  match c with
  | Boolean c => ret (BooleanContext.evaluate c metric)
  | BelowThreshold c => BelowThresholdContext.evaluate c metric
  | Scalar c => ScalarContext.evaluate c metric
  end.

(** ** The check ([nagiosplugin.Check], [nagiosplugin.Results]) *)

Module Results.

Definition state_eqb (a b : ServiceState) : bool := code a =? code b.

(** [max(a, b)] of two states.  States are ordered as the tuples
    [(code, text)], that is by their code. *)
Definition worse (a b : ServiceState) : ServiceState :=
  if code a <? code b then b else a.

(** [most_significant_state]: the greatest state among the results,
    [ValueError] when there is none. *)
Definition most_significant_state (results : list Result)
  : result ServiceState :=
  match results with
  | [] => raise ValueError
  | r :: rest => ret (fold_left (fun s r => worse s (state r)) rest (state r))
  end.

(** Iterating over the results: by decreasing state, and in the order
    they were added within one state. *)
Definition iter (results : list Result) : list Result :=
  flat_map
    (fun s => filter (fun r => state_eqb (state r) s) results)
    [Unknown; Critical; Warn; Ok].

End Results.

Module Check.

(** [self.contexts[name]]. *)
Fixpoint context (contexts : list Context) (name : string) : result Context :=
  match contexts with
  | [] => raise (KeyError name)
  | c :: rest =>
      if String.eqb (context_name c) name then ret c else context rest name
  end.

(** The loop of [_evaluate_resource] over the metrics of the probe:
    each metric is evaluated by the context it names and its result is
    added to [results] (its performance data are collected as well, and
    take no part in the state). *)
Fixpoint evaluate_metrics (contexts : list Context) (results : list Result)
  (metrics : list Metric) : result (list Result) :=
  match metrics with
  | [] => ret results
  | m :: rest =>
      c <- context contexts (metric_context m) ;;
      r <- evaluate c m ;;
      evaluate_metrics contexts (Py.append results r) rest
  end.

(** Running the check: the probe first, then each metric; an
    exception of either leaves the check. *)
Definition run (probe : result (list Metric)) (contexts : list Context)
  : result (list Result) :=
  metrics <- probe ;;
  evaluate_metrics contexts [] metrics.

(** [Check.state]: [Unknown] without results. *)
Definition state (results : list Result) : ServiceState :=
  match Results.most_significant_state results with
  | inr s => s
  | inl _ => Unknown
  end.

(** [Check.exitcode]: 3 without results. *)
Definition exitcode (results : list Result) : Z :=
  match Results.most_significant_state results with
  | inr s => code s
  | inl _ => 3
  end.

End Check.

Module TrexSummary.

(** f"{result.metric.name} {result.state}: {result.hint}" *)
Definition line (r : Result) : string :=
  metric_name (metric r) ++ " " ++ text (state r) ++ ": "
  ++ match hint r with
     | Some h => h
     | None => "None"
     end.

(** [TrexSummary.problem], the status text of a check whose state is
    not [Ok]. *)
Definition problem (results : list Result) : string :=
  String.concat ", "
    (map line
       (filter (fun r => negb (String.eqb (text (state r)) "ok"))
          (Results.iter results))).

End TrexSummary.

(** ** The summary of the status line ([nagiosplugin.Result], [nagiosplugin.Summary], [nagiosplugin.Check]) *)




(** ** The command line and [main] *)

(** The namespace [parse_arguments] returns.  The thresholds of the
    hashrate and of the uptime have no default; those of the
    temperatures default to 70, 90, 90 and 110. *)
Record Args : Type := mkArgs {
  show_version : bool;
  url : string;
  timeout : Z;
  hashrate_warning : option Z;
  hashrate_critical : option Z;
  uptime_warning : option Z;
  uptime_critical : option Z;
  paused_warning : bool;
  paused_critical : bool;
  temperature_warning : Z;
  temperature_critical : Z;
  memory_temperature_warning : Z;
  memory_temperature_critical : Z
}.

(** The arguments of a command line without options. *)
Definition default_args : Args :=
  mkArgs false "http://127.0.0.1:4067" 3 None None None None false false
    70 90 90 110.

(** What the program is run in: the network, and the text [str(err)] of
    an exception. *)
Record World : Type := mkWorld {
  requests_get : string -> Z -> Trex.reply;
  str_exn : exn -> string
}.

(** How a run of [main] ends. *)
Inductive outcome : Type :=
| Returned
  (** [--version]: "1.0.0" is printed and [main] returns *)
| Checked (results : list Result)
  (** [check.main()] printed the status of the check and left through
      [sys.exit(check.exitcode)] *)
| Failed (message : string)
  (** the handler printed [message] and left through
      [sys.exit(Unknown.code)] *).

(** The contexts of the check, in the order [main] builds them.  The two
    scalar contexts are the ones whose construction can raise. *)
Definition contexts (args : Args) : result (list Context) :=
  let success := BooleanContext.mk "success" true false false in
  let paused :=
    BooleanContext.mk "paused" true (paused_warning args) (paused_critical args) in
  let hashrate :=
    BelowThresholdContext.mk "hashrate"
      (hashrate_warning args) (hashrate_critical args) in
  let uptime :=
    BelowThresholdContext.mk "uptime"
      (uptime_warning args) (uptime_critical args) in
  temperature <-
    ScalarContext.new "temperature"
      (temperature_warning args) (temperature_critical args) ;;
  memory_temperature <-
    ScalarContext.new "memory_temperature"
      (memory_temperature_warning args) (memory_temperature_critical args) ;;
  ret [Boolean success; Boolean paused; BelowThreshold hashrate;
       BelowThreshold uptime; Scalar temperature; Scalar memory_temperature].

(** The [try] block of [main]. *)
Definition check (w : World) (args : Args) : result (list Result) :=
  let trex := Trex.mk (url args) (timeout args) in
  cs <- contexts args ;;
  Check.run (Trex.probe (requests_get w) trex) cs.

Definition main (w : World) (args : Args) : outcome :=
  if show_version args then Returned
  else
    match check w args with
    | inr results => Checked results
    | inl err => Failed ("Failed to execute check: " ++ str_exn w err)
    end.

(** The exit status of the process. *)
Definition exit_code (o : outcome) : Z :=
  match o with
  | Returned => 0
  | Checked results => Check.exitcode results
  | Failed _ => code Unknown
  end.


(** ** The vocabulary of the specification *)

(** The below-threshold rule in the words of the specification:
    critical if a critical bound is set and the value is at most it, else
    warning if a warning bound is set and the value is at most it, else
    OK. *)
Definition below_reference (warning critical : option Z) (v : Z) : ServiceState :=
  match critical with
  | Some c => if v <=? c then Critical else
      match warning with
      | Some w => if v <=? w then Warn else Ok
      | None => Ok
      end
  | None =>
      match warning with
      | Some w => if v <=? w then Warn else Ok
      | None => Ok
      end
  end.

(** The above-threshold rule in the words of the specification: critical
    if the value is at least the critical bound, else warning if it is at
    least the warning bound, else OK. *)
Definition above_reference (w c v : Z) : ServiceState :=
  if v >=? c then Critical else if v >=? w then Warn else Ok.

(** The severity the two flags of a boolean context configure. *)
Definition configured (self : BooleanContext.t) : ServiceState :=
  if BooleanContext.critical self then Critical
  else if BooleanContext.warning self then Warn
  else Ok.

(** A world whose network answers every request with [r]. *)
Definition answering (r : Trex.reply) : World :=
  mkWorld (fun _ _ => r) (fun _ => "error").

(** A failure of the probe in the words of the specification, with the
    exception it is: no response (a network failure, a timeout), a
    response with an error status, a body that is no JSON text. *)
Definition failure (r : Trex.reply) : option exn :=
  match r with
  | Trex.NoResponse e => Some e
  | Trex.Response status_code body =>
      if (400 <=? status_code) && (status_code <? 600)
      then Some (HTTPError status_code)
      else match body with
           | None => Some JSONDecodeError
           | Some _ => None
           end
  end.

(** The metric of a field of a dict, when the dict has the field; [f] is
    what the probe does to the value ([bool] for the two flags). *)
Definition field (d : list (string * pyval)) (k : string) (f : pyval -> pyval)
  : list Metric :=
  match Py.lookup k d with
  | Some v => [mkMetric k (f v) k]
  | None => []
  end.

Definition as_bool (v : pyval) : pyval := PBool (Py.truth v).

(** The metrics the probe reads outside the list of GPUs. *)
Definition fields (d : list (string * pyval)) : list Metric :=
  (field d "hashrate" (fun v => v) ++ field d "success" as_bool
   ++ field d "paused" as_bool ++ field d "uptime" (fun v => v))%list.

(** A record of the list of GPUs the loop gets through: a dict with a
    name and an id and without memory temperature. *)
Definition plain_gpu (gpu : pyval) : bool :=
  match gpu with
  | PDict g =>
      match Py.lookup "name" g, Py.lookup "gpu_id" g,
            Py.lookup "memory_temperature" g with
      | Some _, Some _, None => true
      | _, _, _ => false
      end
  | _ => false
  end.

(** The uptime, when there is one, is a number. *)
Definition plain_uptime (d : list (string * pyval)) : bool :=
  match Py.lookup "uptime" d with
  | Some uptime =>
      match Py.number uptime with
      | Some _ => true
      | None => false
      end
  | None => true
  end.

(** The temperatures of the GPUs that report one. *)
Definition temperatures (gpus : list pyval) : list Metric :=
  flat_map
    (fun gpu =>
       match gpu with
       | PDict g => field g "temperature" (fun v => v)
       | _ => []
       end)
    gpus.




(** The value is a JSON object. *)
Definition is_dict (v : pyval) : bool :=
  match v with
  | PDict _ => true
  | _ => false
  end.

(** A command line that sets no alert on the hashrate, the uptime or
    the pause: the bounds are absent (or 0, which the evaluator takes for
    absent) and the two flags are not given. *)
Definition quiet (args : Args) : bool :=
  negb (Py.truth_opt (hashrate_warning args))
  && negb (Py.truth_opt (hashrate_critical args))
  && negb (Py.truth_opt (uptime_warning args))
  && negb (Py.truth_opt (uptime_critical args))
  && negb (paused_warning args)
  && negb (paused_critical args).

(** The command line [args] with other bounds for the hashrate. *)
Definition with_hashrate_bounds (args : Args) (warning critical : option Z)
  : Args :=
  mkArgs (show_version args) (url args) (timeout args)
    warning critical
    (uptime_warning args) (uptime_critical args)
    (paused_warning args) (paused_critical args)
    (temperature_warning args) (temperature_critical args)
    (memory_temperature_warning args) (memory_temperature_critical args).

(** ** The monad *)

Lemma bind_inr {A B} (c : result A) (k : A -> result B) (b : B) :
  bind c k = inr b -> exists a, c = inr a /\ k a = inr b.
Proof.
  destruct c as [e | a]; simpl; intros H.
  - discriminate.
  - exists a. split; [reflexivity | exact H].
Qed.

Lemma bind_inl {A B} (c : result A) (k : A -> result B) (e : exn) :
  c = inl e -> bind c k = inl e.
Proof. intros ->. reflexivity. Qed.

Lemma bind_ret {A B} (a : A) (k : A -> result B) : bind (ret a) k = k a.
Proof. reflexivity. Qed.

(** ** The below-threshold evaluator *)

(** On an int value and bounds that are not 0, the below-threshold
    evaluator follows the reference: Critical when the critical bound is
    set and the value is at most it, else Warning when the warning bound
    is set and the value is at most it, else OK. *)
Theorem below_threshold_reference name w c (m : Metric) v :
  metric_value m = PInt v ->
  w <> Some 0 -> c <> Some 0 ->
  exists r,
    BelowThresholdContext.evaluate (BelowThresholdContext.mk name w c) m = inr r
    /\ state r = below_reference w c v.
Proof.
  intros Hv Hw Hc.
  unfold BelowThresholdContext.evaluate, BelowThresholdContext.below,
    below_reference, Py.truth_opt; simpl.
  rewrite Hv; simpl.
  destruct c as [c |], w as [w |];
    repeat match goal with
      | |- context [?z =? 0] =>
          destruct (Z.eqb_spec z 0) as [-> | _]; [congruence |]; simpl
      end;
    repeat match goal with
      | |- context [?a <=? ?b] => destruct (a <=? b); simpl
      end;
    eexists; split; reflexivity.
Qed.

Lemma below_threshold_reference_witness :
  exists r,
    BelowThresholdContext.evaluate
      (BelowThresholdContext.mk "hashrate" (Some 700) (Some 600))
      (mkMetric "hashrate" (PInt 650) "hashrate") = inr r
    /\ state r = Warn.
Proof.
  exact (below_threshold_reference "hashrate" (Some 700) (Some 600)
           (mkMetric "hashrate" (PInt 650) "hashrate") 650 eq_refl
           ltac:(discriminate) ltac:(discriminate)).
Defined.

(** C1, at the input where the code leaves the rule: with the critical
    bound of the hashrate set to 0 and a hashrate of 0, the evaluator
    answers OK, and so does the whole check (exit code 0), where the
    reference definition answers Critical.  The test [self.critical and
    ...] takes the bound 0 for a bound that is not set. *)
Theorem below_threshold_zero_bound :
  let m := mkMetric "hashrate" (PInt 0) "hashrate" in
  let args :=
    mkArgs false "http://127.0.0.1:4067" 3 None (Some 0) None None
      false false 70 90 90 110 in
  let data := PDict [("hashrate", PInt 0); ("gpus", PList [])] in
  BelowThresholdContext.evaluate
    (BelowThresholdContext.mk "hashrate" None (Some 0)) m
  = inr (mkResult Ok None m)
  /\ below_reference None (Some 0) 0 = Critical
  /\ main (answering (Trex.Response 200 (Some data))) args
     = Checked [mkResult Ok None m]
  /\ exit_code (main (answering (Trex.Response 200 (Some data))) args) = 0.
Proof. repeat split. Qed.

(** ** The boolean evaluator *)

(** C6: a boolean context answers OK when the value is the expected one,
    and the severity its flags configure (Critical with the critical
    flag, else Warning with the warning flag, else OK) when it is not. *)
Theorem boolean_evaluate_state (self : BooleanContext.t) (name context : string)
  (observed : bool) :
  state (BooleanContext.evaluate self (mkMetric name (PBool observed) context))
  = if Bool.eqb observed (BooleanContext.expected self) then Ok
    else configured self.
Proof.
  unfold BooleanContext.evaluate, configured; simpl.
  destruct (Bool.eqb observed (BooleanContext.expected self)); simpl;
    [reflexivity |].
  destruct (BooleanContext.critical self), (BooleanContext.warning self);
    reflexivity.
Qed.

(** C2, on the code: a paused miner checked with [--paused-warning] is
    reported OK and the exit code is 0.  The context of [paused] is built
    with [expected=True], so it is the miner that is not paused that gets
    the warning (exit code 1). *)
Theorem paused_true_is_ok :
  let args :=
    mkArgs false "http://127.0.0.1:4067" 3 None None None None
      true false 70 90 90 110 in
  let paused b := PDict [("paused", PBool b); ("gpus", PList [])] in
  let m b := mkMetric "paused" (PBool b) "paused" in
  main (answering (Trex.Response 200 (Some (paused true)))) args
  = Checked [mkResult Ok None (m true)]
  /\ exit_code (main (answering (Trex.Response 200 (Some (paused true)))) args) = 0
  /\ main (answering (Trex.Response 200 (Some (paused false)))) args
     = Checked [mkResult Warn (Some "paused is not True") (m false)]
  /\ exit_code (main (answering (Trex.Response 200 (Some (paused false)))) args) = 1.
Proof. repeat split. Qed.

(** ** The scalar evaluator *)

Lemma range_new_positive (spec : Z) :
  0 < spec -> Range.new spec = inr (Range.mk false (Range.Fin 0) (Range.Fin spec)).
Proof.
  intros H. unfold Range.new.
  destruct (Z.eqb_spec spec 0) as [-> | _]; [lia |].
  destruct (Z.gtb_spec 0 spec); [lia | reflexivity].
Qed.

Lemma range_match_int (bound v : Z) :
  Range.match_ (Range.mk false (Range.Fin 0) (Range.Fin bound)) (PInt v)
  = inr (negb ((v <? 0) || (v >? bound))).
Proof.
  unfold Range.match_; simpl.
  destruct (v <? 0); simpl; [reflexivity |].
  destruct (v >? bound); reflexivity.
Qed.

(** C5, as the code has it: with positive bounds [w] and [c] the scalar
    context of a temperature answers Critical when the value is greater
    than [c] (or negative), else Warning when it is greater than [w],
    else OK: a value equal to a bound is still inside its range.  A
    temperature of 95 with the bounds 70 and 90 is Critical and the exit
    code is 2. *)
Theorem scalar_evaluate_state :
  (forall (name : string) (w c v : Z) (m : Metric),
      metric_value m = PInt v -> 0 < w -> 0 < c ->
      exists ctx r,
        ScalarContext.new name w c = inr ctx
        /\ ScalarContext.evaluate ctx m = inr r
        /\ state r = if (v <? 0) || (v >? c) then Critical
                     else if v >? w then Warn
                     else Ok)
  /\ (let gpu :=
        PDict [("name", PStr "GPU"); ("gpu_id", PInt 0); ("temperature", PInt 95)] in
      let data := PDict [("gpus", PList [gpu])] in
      let run := main (answering (Trex.Response 200 (Some data))) default_args in
      run = Checked [mkResult Critical (Some "outside range 0:90")
                       (mkMetric "temperature" (PInt 95) "temperature")]
      /\ exit_code run = 2).
Proof.
  split; [| split; reflexivity].
  intros name w c v m Hv Hw Hc.
  unfold ScalarContext.new.
  rewrite (range_new_positive w Hw), (range_new_positive c Hc).
  cbv beta delta [bind ret] iota.
  eexists. unfold ScalarContext.evaluate.
  enough (G : forall ctx, ctx = ScalarContext.mk name
                (Range.mk false (Range.Fin 0) (Range.Fin w))
                (Range.mk false (Range.Fin 0) (Range.Fin c)) ->
            exists r,
              ScalarContext.evaluate ctx m = inr r
              /\ state r = if (v <? 0) || (v >? c) then Critical
                           else if v >? w then Warn
                           else Ok).
  { destruct (G _ eq_refl) as [r [Hr Hs]]. exists r. repeat split; assumption. }
  intros ctx ->. unfold ScalarContext.evaluate.
  cbn [ScalarContext.critical ScalarContext.warning].
  rewrite Hv, !range_match_int.
  cbv beta delta [bind ret] iota.
  rewrite !negb_involutive.
  destruct ((v <? 0) || (v >? c)) eqn:Ec.
  - eexists; split; reflexivity.
  - apply orb_false_elim in Ec as [E0 _]. rewrite E0; simpl.
    destruct (v >? w); eexists; split; reflexivity.
Qed.

Lemma scalar_evaluate_state_witness :
  exists ctx r,
    ScalarContext.new "temperature" 70 90 = inr ctx
    /\ ScalarContext.evaluate ctx (mkMetric "temperature" (PInt 80) "temperature")
       = inr r
    /\ state r = Warn.
Proof.
  exact (proj1 scalar_evaluate_state "temperature" 70 90 80
           (mkMetric "temperature" (PInt 80) "temperature")
           eq_refl eq_refl eq_refl).
Defined.

(** C5 as the specification words it fails at a value equal to the
    critical bound: 90 with the bounds 70 and 90 is a Warning for the
    code, and Critical for the rule "critical if the value is at least
    the bound". *)
Lemma scalar_at_bound_counterexample :
  (ctx <- ScalarContext.new "temperature" 70 90 ;;
   r <- ScalarContext.evaluate ctx (mkMetric "temperature" (PInt 90) "temperature") ;;
   ret (state r)) = inr Warn
  /\ above_reference 70 90 90 = Critical.
Proof. split; reflexivity. Qed.

(** ** The state and the exit code of a check *)

Lemma worse_ge_l (a b : ServiceState) : code a <= code (Results.worse a b).
Proof. unfold Results.worse. destruct (Z.ltb_spec (code a) (code b)); lia. Qed.

Lemma worse_ge_r (a b : ServiceState) : code b <= code (Results.worse a b).
Proof. unfold Results.worse. destruct (Z.ltb_spec (code a) (code b)); lia. Qed.

Lemma worse_cases (a b : ServiceState) :
  Results.worse a b = a \/ Results.worse a b = b.
Proof. unfold Results.worse. destruct (code a <? code b); auto. Qed.

Lemma worst_ge_init (rest : list Result) (s : ServiceState) :
  code s <= code (fold_left (fun s r => Results.worse s (state r)) rest s).
Proof.
  revert s. induction rest as [| r rest IH]; intros s; simpl; [lia |].
  specialize (IH (Results.worse s (state r))).
  pose proof (worse_ge_l s (state r)). lia.
Qed.

Lemma worst_ge_each (rest : list Result) (s : ServiceState) (r : Result) :
  In r rest ->
  code (state r) <= code (fold_left (fun s r => Results.worse s (state r)) rest s).
Proof.
  revert s. induction rest as [| r' rest IH]; intros s; simpl; [tauto |].
  intros [-> | Hin].
  - pose proof (worst_ge_init rest (Results.worse s (state r))).
    pose proof (worse_ge_r s (state r)). lia.
  - apply IH, Hin.
Qed.

Lemma worst_attained (rest : list Result) (s : ServiceState) :
  fold_left (fun s r => Results.worse s (state r)) rest s = s
  \/ exists r,
       In r rest
       /\ state r = fold_left (fun s r => Results.worse s (state r)) rest s.
Proof.
  revert s. induction rest as [| r rest IH]; intros s; simpl; [auto |].
  destruct (IH (Results.worse s (state r))) as [E | [r' [Hin E]]].
  - rewrite E.
    destruct (worse_cases s (state r)) as [-> | ->]; [auto |].
    right. exists r. auto.
  - right. exists r'. auto.
Qed.

Lemma exitcode_state (results : list Result) :
  Check.exitcode results = code (Check.state results).
Proof.
  unfold Check.exitcode, Check.state.
  destruct (Results.most_significant_state results); reflexivity.
Qed.

Lemma state_upper_bound (results : list Result) (r : Result) :
  In r results -> code (state r) <= code (Check.state results).
Proof.
  unfold Check.state. destruct results as [| r0 rest]; simpl; [tauto |].
  intros [<- | Hin].
  - apply worst_ge_init.
  - apply worst_ge_each, Hin.
Qed.

Lemma state_attained (results : list Result) :
  results <> [] -> exists r, In r results /\ state r = Check.state results.
Proof.
  unfold Check.state. destruct results as [| r0 rest]; [congruence |].
  intros _. simpl.
  destruct (worst_attained rest (state r0)) as [E | [r [Hin E]]].
  - exists r0. split; [now left | now rewrite E].
  - exists r. split; [now right | exact E].
Qed.

(** C7: when the check has run, the state it reports is the worst state
    among the results of the metrics (no result has a greater one, and a
    result has it), and the exit code is the Nagios code of that state:
    0 for OK, 1 for WARNING, 2 for CRITICAL, 3 for UNKNOWN.  A check
    without any result reports UNKNOWN. *)
Theorem overall_is_worst (w : World) (args : Args) (results : list Result) :
  main w args = Checked results ->
  exit_code (main w args)
  = match Check.state results with
    | Ok => 0
    | Warn => 1
    | Critical => 2
    | Unknown => 3
    end
  /\ (forall r, In r results -> code (state r) <= code (Check.state results))
  /\ (results <> [] ->
      exists r, In r results /\ state r = Check.state results)
  /\ (results = [] -> Check.state results = Unknown).
Proof.
  intros Hrun. rewrite Hrun; simpl. repeat split.
  - rewrite exitcode_state. destruct (Check.state results); reflexivity.
  - intros r. apply state_upper_bound.
  - apply state_attained.
  - intros ->. reflexivity.
Qed.

Lemma overall_is_worst_witness :
  let gpu :=
    PDict [("name", PStr "GPU"); ("gpu_id", PInt 0); ("temperature", PInt 95)] in
  let data :=
    PDict [("hashrate", PInt 500); ("paused", PBool false); ("gpus", PList [gpu])] in
  let args :=
    mkArgs false "http://127.0.0.1:4067" 3 None None None None
      true false 70 90 90 110 in
  exit_code (main (answering (Trex.Response 200 (Some data))) args) = 2.
Proof.
  exact (proj1 (overall_is_worst
                  (answering (Trex.Response 200 (Some (PDict
                     [("hashrate", PInt 500); ("paused", PBool false);
                      ("gpus", PList [PDict [("name", PStr "GPU");
                                             ("gpu_id", PInt 0);
                                             ("temperature", PInt 95)]])]))))
                  (mkArgs false "http://127.0.0.1:4067" 3 None None None None
                     true false 70 90 90 110)
                  [mkResult Ok None (mkMetric "hashrate" (PInt 500) "hashrate");
                   mkResult Warn (Some "paused is not True")
                     (mkMetric "paused" (PBool false) "paused");
                   mkResult Critical (Some "outside range 0:90")
                     (mkMetric "temperature" (PInt 95) "temperature")]
                  eq_refl)).
Defined.

(** ** Failures of the probe *)

Lemma probe_failure (get : string -> Z -> Trex.reply) (self : Trex.t) (e : exn) :
  failure (get (Trex.url self ++ "/summary") (Trex.timeout self)) = Some e ->
  Trex.probe get self = inl e.
Proof.
  unfold failure, Trex.probe, Trex.raise_for_status.
  destruct (get _ _) as [e' | status_code body].
  - intros [= <-]. reflexivity.
  - destruct ((400 <=? status_code) && (status_code <? 600)); simpl.
    + intros [= <-]. reflexivity.
    + destruct body; [discriminate |]. intros [= <-]. reflexivity.
Qed.

(** C8, as the code has it: a failure of the probe (no response from
    the network, a timeout, a response with a status from 400 to 599, a
    body that is no JSON text) ends in the handler of [main]: the message
    "Failed to execute check: " with the text of the exception is printed
    and the exit code is 3, the code of UNKNOWN.  The exception is the
    one of the probe, or the [ValueError] of a context that could not be
    built. *)
Theorem probe_failure_is_unknown (w : World) (args : Args) (e : exn) :
  show_version args = false ->
  failure (requests_get w (url args ++ "/summary") (timeout args)) = Some e ->
  main w args
  = Failed ("Failed to execute check: "
            ++ str_exn w match contexts args with
                         | inl e' => e'
                         | inr _ => e
                         end)
  /\ exit_code (main w args) = 3.
Proof.
  intros Hv Hf. unfold main, check. rewrite Hv.
  destruct (contexts args) as [e' | cs]; simpl; [split; reflexivity |].
  unfold Check.run.
  rewrite (probe_failure _ (Trex.mk (url args) (timeout args)) e Hf).
  split; reflexivity.
Qed.

Lemma probe_failure_is_unknown_witness :
  main (answering (Trex.NoResponse ConnectionError)) default_args
  = Failed "Failed to execute check: error"
  /\ exit_code (main (answering (Trex.NoResponse ConnectionError)) default_args) = 3.
Proof.
  exact (probe_failure_is_unknown
           (answering (Trex.NoResponse ConnectionError)) default_args
           ConnectionError eq_refl eq_refl).
Defined.

(** C8 as the specification words it fails for a response that is not
    2xx and no error either: the status 300 is no redirection that
    [requests] follows and nothing [raise_for_status] raises on, so with
    a JSON body the check runs and the exit code is 0. *)
Lemma status_300_counterexample :
  let data := PDict [("hashrate", PInt 500); ("gpus", PList [])] in
  let run := main (answering (Trex.Response 300 (Some data))) default_args in
  run = Checked [mkResult Ok None (mkMetric "hashrate" (PInt 500) "hashrate")]
  /\ exit_code run = 0.
Proof. split; reflexivity. Qed.

(** ** The probe, field by field *)

Lemma probe_gpu_acc (acc : list Metric) (gpu : pyval) :
  Trex.probe_gpu acc gpu
  = (ms <- Trex.probe_gpu [] gpu ;; ret (acc ++ ms)%list).
Proof.
  unfold Trex.probe_gpu.
  destruct (Py.getitem gpu "name") as [e | name]; [reflexivity |]; simpl.
  destruct (Py.getitem gpu "gpu_id") as [e | id]; [reflexivity |]; simpl.
  destruct (Py.contains "temperature" gpu) as [e | [|]]; [reflexivity | |]; simpl.
  - destruct (Py.getitem gpu "temperature") as [e | t]; [reflexivity |]; simpl.
    destruct (Py.contains "memory_temperature" gpu) as [e | [|]];
      [reflexivity | |]; simpl.
    + destruct (Py.getitem gpu "memory_temperature"); reflexivity.
    + reflexivity.
  - destruct (Py.contains "memory_temperature" gpu) as [e | [|]];
      [reflexivity | |]; simpl.
    + destruct (Py.getitem gpu "memory_temperature"); reflexivity.
    + unfold ret. now rewrite app_nil_r.
Qed.

Lemma probe_gpus_acc (gpus : list pyval) (acc : list Metric) :
  Trex.probe_gpus acc gpus
  = (ms <- Trex.probe_gpus [] gpus ;; ret (acc ++ ms)%list).
Proof.
  revert acc. induction gpus as [| gpu rest IH]; intros acc; simpl.
  - unfold ret. now rewrite app_nil_r.
  - rewrite probe_gpu_acc.
    destruct (Trex.probe_gpu [] gpu) as [e | ms]; [reflexivity |]; simpl.
    rewrite (IH (acc ++ ms)%list), (IH ms).
    destruct (Trex.probe_gpus [] rest) as [e | ms']; [reflexivity |]; simpl.
    unfold ret. now rewrite app_assoc.
Qed.

(** The probe of a JSON object: the test of the uptime and the loop
    over the GPUs decide whether it raises, and the metrics are those of
    the fields followed by those of the GPUs. *)
Lemma probe_data_dict (d : list (string * pyval)) :
  Trex.probe_data (PDict d)
  = (_ <- match Py.lookup "uptime" d with
          | Some uptime => Py.gt uptime 1
          | None => ret false
          end ;;
     gpus <- Py.iter match Py.lookup "gpus" d with
                     | Some gpus => gpus
                     | None => PNone
                     end ;;
     ms <- Trex.probe_gpus [] gpus ;;
     ret (fields d ++ ms)%list).
Proof.
  unfold Trex.probe_data, fields, field, Py.contains, Py.getitem, Py.get, Py.append.
  destruct (Py.lookup "hashrate" d), (Py.lookup "success" d),
    (Py.lookup "paused" d), (Py.lookup "uptime" d) as [u |];
    cbn [bind ret app];
    try (destruct (Py.gt u 1) as [e | b]; [reflexivity |]; cbn [bind ret app]);
    (destruct (Py.lookup "gpus" d) as [g |]; cbn [bind ret app];
     [destruct (Py.iter g) as [e | gpus]; [reflexivity |] | reflexivity]);
    cbn [bind ret app]; apply probe_gpus_acc.
Qed.

(** ** The memory temperature *)

Lemma bind_raises {A B} (c : result A) (k : A -> result B) :
  (forall a, exists e, k a = inl e) -> exists e, bind c k = inl e.
Proof.
  intros H. destruct c as [e | a]; simpl; [now exists e | apply H].
Qed.

(** A record with the fields the loop reads first reaches the name that
    is not bound. *)
Lemma probe_gpu_name_error (acc : list Metric) (g : list (string * pyval))
  (name id t : pyval) :
  Py.lookup "name" g = Some name ->
  Py.lookup "gpu_id" g = Some id ->
  Py.lookup "memory_temperature" g = Some t ->
  Trex.probe_gpu acc (PDict g) = inl (NameError "memory_temperature").
Proof.
  intros Hn Hi Hm. unfold Trex.probe_gpu, Py.getitem, Py.contains.
  rewrite Hn, Hi, Hm; simpl.
  destruct (Py.lookup "temperature" g); reflexivity.
Qed.

Lemma probe_gpu_raises (acc : list Metric) (g : list (string * pyval)) (t : pyval) :
  Py.lookup "memory_temperature" g = Some t ->
  exists e, Trex.probe_gpu acc (PDict g) = inl e.
Proof.
  intros Hm. unfold Trex.probe_gpu.
  do 4 (apply bind_raises; intros ?).
  unfold Py.contains, Py.getitem. rewrite Hm; simpl. eauto.
Qed.

Lemma probe_gpus_raises (gpus : list pyval) (g : list (string * pyval)) (t : pyval) :
  In (PDict g) gpus ->
  Py.lookup "memory_temperature" g = Some t ->
  forall acc, exists e, Trex.probe_gpus acc gpus = inl e.
Proof.
  intros Hin Hm. induction gpus as [| gpu rest IH]; [destruct Hin |].
  intros acc; simpl. destruct Hin as [-> | Hin].
  - destruct (probe_gpu_raises acc g t Hm) as [e ->]. now exists e.
  - apply bind_raises. intros ms. apply IH, Hin.
Qed.

Lemma probe_gpu_names (gpu : pyval) (ms : list Metric) :
  Trex.probe_gpu [] gpu = inr ms ->
  forall m, In m ms -> metric_name m = "temperature".
Proof.
  unfold Trex.probe_gpu. intros H.
  apply bind_inr in H as [name [_ H]].
  apply bind_inr in H as [id [_ H]].
  apply bind_inr in H as [has_t [_ H]].
  apply bind_inr in H as [ms' [Ht H]].
  apply bind_inr in H as [has_m [_ H]].
  assert (Hms : ms = ms').
  { destruct has_m; [| now injection H].
    destruct (Py.getitem gpu "memory_temperature"); discriminate. }
  subst ms'. destruct has_t.
  - apply bind_inr in Ht as [t [_ [= <-]]].
    intros m [<- | []]. reflexivity.
  - injection Ht as <-. intros m [].
Qed.

Lemma probe_gpus_names (gpus : list pyval) (ms : list Metric) :
  Trex.probe_gpus [] gpus = inr ms ->
  forall m, In m ms -> metric_name m = "temperature".
Proof.
  revert ms. induction gpus as [| gpu rest IH]; intros ms; simpl.
  - intros [= <-] m [].
  - intros H. apply bind_inr in H as [ms1 [H1 H]].
    rewrite probe_gpus_acc in H. apply bind_inr in H as [ms2 [H2 [= <-]]].
    intros m Hin. apply in_app_or in Hin as [Hin | Hin].
    + apply (probe_gpu_names gpu ms1 H1 m Hin).
    + apply (IH ms2 H2 m Hin).
Qed.

Lemma field_names d k f (m : Metric) : In m (field d k f) -> metric_name m = k.
Proof.
  unfold field. destruct (Py.lookup k d); [| intros []].
  intros [<- | []]. reflexivity.
Qed.

(** The names of the metrics of a probe. *)
Lemma probe_data_names (data : pyval) (ms : list Metric) (m : Metric) :
  Trex.probe_data data = inr ms -> In m ms ->
  In (metric_name m) ["hashrate"; "success"; "paused"; "uptime"; "temperature"].
Proof.
  destruct data as [| b | z | s | l | d].
  1-3: discriminate.
  - unfold Trex.probe_data; cbn [Py.contains bind ret Py.getitem].
    destruct (Py.occurs "hashrate" s); [discriminate |].
    destruct (Py.occurs "success" s); [discriminate |].
    destruct (Py.occurs "paused" s); [discriminate |].
    destruct (Py.occurs "uptime" s); discriminate.
  - unfold Trex.probe_data; cbn [Py.contains bind ret Py.getitem].
    destruct (existsb (Py.is_str "hashrate") l); [discriminate |].
    destruct (existsb (Py.is_str "success") l); [discriminate |].
    destruct (existsb (Py.is_str "paused") l); [discriminate |].
    destruct (existsb (Py.is_str "uptime") l); discriminate.
  - rewrite probe_data_dict. intros H Hin.
    apply bind_inr in H as [_ [_ H]].
    apply bind_inr in H as [gpus [_ H]].
    apply bind_inr in H as [ms' [Hg [= <-]]].
    apply in_app_or in Hin as [Hin | Hin].
    + unfold fields in Hin.
      repeat (apply in_app_or in Hin as [Hin | Hin]);
        apply field_names in Hin; rewrite Hin; simpl; tauto.
    + rewrite (probe_gpus_names gpus ms' Hg m Hin). simpl; tauto.
Qed.

(** C4: a record of the list of GPUs with a [memory_temperature] field
    makes the probe raise: the record is processed up to the read of
    [memory_temperature], a name that is not bound, which raises
    [NameError] (when the record lacks a field read before, the probe has
    raised already).  The probe never returns a metric named
    [memory_temperature]. *)
Theorem memory_temperature_raises (d g : list (string * pyval))
  (gpus : list pyval) (t : pyval) :
  Py.lookup "gpus" d = Some (PList gpus) ->
  In (PDict g) gpus ->
  Py.lookup "memory_temperature" g = Some t ->
  (exists e, Trex.probe_data (PDict d) = inl e)
  /\ (forall acc name id,
         Py.lookup "name" g = Some name ->
         Py.lookup "gpu_id" g = Some id ->
         Trex.probe_gpu acc (PDict g) = inl (NameError "memory_temperature"))
  /\ (forall data ms m,
         Trex.probe_data data = inr ms -> In m ms ->
         metric_name m <> "memory_temperature").
Proof.
  intros Hg Hin Hm. repeat split.
  - rewrite probe_data_dict, Hg; simpl.
    apply bind_raises; intros _.
    destruct (probe_gpus_raises gpus g t Hin Hm []) as [e ->]. now exists e.
  - intros acc name id Hn Hi. exact (probe_gpu_name_error acc g name id t Hn Hi Hm).
  - intros data ms m Hp Hi E.
    pose proof (probe_data_names data ms m Hp Hi) as H. rewrite E in H.
    simpl in H. repeat (destruct H as [H | H]; [discriminate |]). exact H.
Qed.

Lemma memory_temperature_raises_witness :
  let g := [("name", PStr "GPU"); ("gpu_id", PInt 0); ("memory_temperature", PInt 80)] in
  exists e, Trex.probe_data (PDict [("gpus", PList [PDict g])]) = inl e.
Proof.
  exact (proj1 (memory_temperature_raises
                  [("gpus", PList [PDict [("name", PStr "GPU"); ("gpu_id", PInt 0);
                                          ("memory_temperature", PInt 80)]])]
                  [("name", PStr "GPU"); ("gpu_id", PInt 0);
                   ("memory_temperature", PInt 80)]
                  [PDict [("name", PStr "GPU"); ("gpu_id", PInt 0);
                          ("memory_temperature", PInt 80)]]
                  (PInt 80) eq_refl (or_introl eq_refl) eq_refl)).
Defined.

(** ** Fields that are absent *)

Lemma probe_gpus_plain (gpus : list pyval) :
  forallb plain_gpu gpus = true ->
  Trex.probe_gpus [] gpus = inr (temperatures gpus).
Proof.
  induction gpus as [| gpu rest IH]; simpl; [reflexivity |].
  intros H. apply andb_prop in H as [Hg Hr].
  destruct gpu as [| | | | | g]; try discriminate.
  assert (E : Trex.probe_gpu [] (PDict g) = inr (field g "temperature" (fun v => v))).
  { unfold Trex.probe_gpu, Py.getitem, Py.contains, field, Py.append.
    simpl in Hg.
    destruct (Py.lookup "name" g); [| discriminate].
    destruct (Py.lookup "gpu_id" g); [| discriminate].
    destruct (Py.lookup "memory_temperature" g); [discriminate |].
    destruct (Py.lookup "temperature" g); reflexivity. }
  rewrite E; simpl. rewrite probe_gpus_acc, (IH Hr). reflexivity.
Qed.

(** Optional fields that are absent: on a JSON object whose [gpus] is a
    list of plain records, the probe returns, and its metrics are those
    of the fields that are present, in the order of the program, then the
    temperatures of the GPUs; a field that is absent gives no metric. *)
Theorem probe_data_plain (d : list (string * pyval)) (gpus : list pyval) :
  Py.lookup "gpus" d = Some (PList gpus) ->
  forallb plain_gpu gpus = true ->
  plain_uptime d = true ->
  Trex.probe_data (PDict d) = inr (fields d ++ temperatures gpus)%list.
Proof.
  intros Hg Hp Hu. rewrite probe_data_dict, Hg; simpl.
  unfold plain_uptime in Hu.
  rewrite (probe_gpus_plain gpus Hp).
  destruct (Py.lookup "uptime" d) as [u |]; [| reflexivity].
  unfold Py.gt. destruct (Py.number u) as [[z s] |]; [reflexivity | discriminate].
Qed.

Lemma probe_data_plain_witness :
  Trex.probe_data
    (PDict [("success", PInt 1);
            ("gpus", PList [PDict [("name", PStr "GPU"); ("gpu_id", PInt 0)]])])
  = inr [mkMetric "success" (PBool true) "success"].
Proof.
  exact (probe_data_plain
           [("success", PInt 1);
            ("gpus", PList [PDict [("name", PStr "GPU"); ("gpu_id", PInt 0)]])]
           [PDict [("name", PStr "GPU"); ("gpu_id", PInt 0)]]
           eq_refl eq_refl eq_refl).
Defined.

Lemma probe_without_gpus (d : list (string * pyval)) :
  Py.lookup "gpus" d = None -> exists e, Trex.probe_data (PDict d) = inl e.
Proof.
  intros Hg. rewrite probe_data_dict, Hg.
  apply bind_raises; intros _. now exists TypeError.
Qed.

(** C3, at the input where the code leaves it: a response without the
    [gpus] list.  [data.get("gpus")] is [None] then and the loop over it
    raises [TypeError]: the probe raises on every JSON object without
    [gpus], and the check of the response [{"hashrate": 500}] ends in the
    handler, with the exit code 3. *)
Theorem probe_without_gpus_raises :
  (forall d, Py.lookup "gpus" d = None ->
             exists e, Trex.probe_data (PDict d) = inl e)
  /\ Trex.probe_data (PDict [("hashrate", PInt 500)]) = inl TypeError
  /\ (let run :=
        main (answering (Trex.Response 200 (Some (PDict [("hashrate", PInt 500)]))))
          default_args in
      run = Failed "Failed to execute check: error" /\ exit_code run = 3).
Proof.
  split; [exact probe_without_gpus |]. repeat split.
Qed.

(** ** The results of a check, metric by metric *)

Lemma evaluate_metrics_acc (cs : list Context) (ms : list Metric) (acc : list Result) :
  Check.evaluate_metrics cs acc ms
  = (rs <- Check.evaluate_metrics cs [] ms ;; ret (acc ++ rs)%list).
Proof.
  revert acc. induction ms as [| m ms IH]; intros acc; simpl.
  - unfold ret. now rewrite app_nil_r.
  - destruct (Check.context cs (metric_context m)) as [e | c]; [reflexivity |]; simpl.
    destruct (evaluate c m) as [e | r]; [reflexivity |]; simpl.
    rewrite (IH (Py.append acc r)), (IH (Py.append [] r)).
    destruct (Check.evaluate_metrics cs [] ms) as [e | rs]; [reflexivity |]; simpl.
    unfold ret, Py.append. now rewrite <- app_assoc.
Qed.

Lemma evaluate_metrics_cons (cs : list Context) (m : Metric) (ms : list Metric) :
  Check.evaluate_metrics cs [] (m :: ms)
  = (c <- Check.context cs (metric_context m) ;;
     r <- evaluate c m ;;
     rs <- Check.evaluate_metrics cs [] ms ;;
     ret (r :: rs)).
Proof.
  simpl.
  destruct (Check.context cs (metric_context m)) as [e | c]; [reflexivity |]; simpl.
  destruct (evaluate c m) as [e | r]; [reflexivity |]; simpl.
  apply evaluate_metrics_acc.
Qed.

(** Every metric of the probe has its result among the results. *)
Lemma evaluate_metrics_in (cs : list Context) (ms : list Metric) (rs : list Result)
  (m : Metric) :
  Check.evaluate_metrics cs [] ms = inr rs -> In m ms ->
  exists c r, Check.context cs (metric_context m) = inr c
              /\ evaluate c m = inr r /\ In r rs.
Proof.
  revert rs. induction ms as [| m' ms IH]; intros rs H Hin; [destruct Hin |].
  rewrite evaluate_metrics_cons in H.
  apply bind_inr in H as [c [Hc H]].
  apply bind_inr in H as [r [Hr H]].
  apply bind_inr in H as [rs' [Hrs [= <-]]].
  destruct Hin as [-> | Hin].
  - exists c, r. repeat split; [assumption | assumption | now left].
  - destruct (IH rs' Hrs Hin) as [c' [r' [H1 [H2 H3]]]].
    exists c', r'. repeat split; [assumption | assumption | now right].
Qed.

(** No context of the program answers UNKNOWN. *)
Lemma evaluate_known (c : Context) (m : Metric) (r : Result) :
  evaluate c m = inr r -> code (state r) <= 2.
Proof.
  destruct c as [c | c | c]; simpl.
  - intros [= <-]. unfold BooleanContext.evaluate.
    destruct (negb _); simpl; [| lia].
    destruct (BooleanContext.critical c), (BooleanContext.warning c); simpl; lia.
  - unfold BelowThresholdContext.evaluate. intros H.
    apply bind_inr in H as [[h |] [_ H]].
    + injection H as <-. simpl; lia.
    + apply bind_inr in H as [[h |] [_ H]]; injection H as <-; simpl; lia.
  - unfold ScalarContext.evaluate. intros H.
    apply bind_inr in H as [i [_ H]]. destruct (negb i).
    + injection H as <-. simpl; lia.
    + apply bind_inr in H as [i' [_ H]].
      destruct (negb i'); injection H as <-; simpl; lia.
Qed.

Lemma evaluate_metrics_known (cs : list Context) (ms : list Metric) (rs : list Result) :
  Check.evaluate_metrics cs [] ms = inr rs ->
  forall r, In r rs -> code (state r) <= 2.
Proof.
  revert rs. induction ms as [| m ms IH]; intros rs H.
  - injection H as <-. intros r [].
  - rewrite evaluate_metrics_cons in H.
    apply bind_inr in H as [c [Hc H]].
    apply bind_inr in H as [r0 [Hr H]].
    apply bind_inr in H as [rs' [Hrs [= <-]]].
    intros r [<- | Hin].
    + exact (evaluate_known c m r0 Hr).
    + exact (IH rs' Hrs r Hin).
Qed.

(** The contexts [main] builds for the four metrics that are no
    temperatures. *)
Lemma contexts_of_args (args : Args) (cs : list Context) :
  contexts args = inr cs ->
  Check.context cs "success"
  = inr (Boolean (BooleanContext.mk "success" true false false))
  /\ Check.context cs "paused"
     = inr (Boolean (BooleanContext.mk "paused" true
                       (paused_warning args) (paused_critical args)))
  /\ Check.context cs "hashrate"
     = inr (BelowThreshold (BelowThresholdContext.mk "hashrate"
                              (hashrate_warning args) (hashrate_critical args)))
  /\ Check.context cs "uptime"
     = inr (BelowThreshold (BelowThresholdContext.mk "uptime"
                              (uptime_warning args) (uptime_critical args))).
Proof.
  unfold contexts. intros H.
  apply bind_inr in H as [t [Ht H]].
  apply bind_inr in H as [mt [Hm [= <-]]].
  repeat split.
Qed.

(** A run that ends in [Checked]: what was probed and evaluated. *)
Lemma main_checked (w : World) (args : Args) (rs : list Result) :
  main w args = Checked rs ->
  exists cs ms,
    contexts args = inr cs
    /\ Trex.probe (requests_get w) (Trex.mk (url args) (timeout args)) = inr ms
    /\ Check.evaluate_metrics cs [] ms = inr rs.
Proof.
  unfold main, check, Check.run.
  destruct (show_version args); [discriminate |].
  destruct (contexts args) as [e | cs]; simpl; [discriminate |].
  destruct (Trex.probe _ _) as [e | ms]; simpl; [discriminate |].
  destruct (Check.evaluate_metrics cs [] ms) as [e | rs'] eqn:E; [discriminate |].
  intros [= <-]. exists cs, ms. repeat split. exact E.
Qed.

Lemma probe_response (get : string -> Z -> Trex.reply) (self : Trex.t)
  (status_code : Z) (data : pyval) (ms : list Metric) :
  get (Trex.url self ++ "/summary") (Trex.timeout self)
  = Trex.Response status_code (Some data) ->
  Trex.probe get self = inr ms ->
  Trex.probe_data data = inr ms.
Proof.
  unfold Trex.probe. intros ->.
  destruct (Trex.raise_for_status status_code); [discriminate |]. simpl. auto.
Qed.

Lemma probe_data_fields (d : list (string * pyval)) (ms : list Metric) (m : Metric) :
  Trex.probe_data (PDict d) = inr ms -> In m (fields d) -> In m ms.
Proof.
  rewrite probe_data_dict. intros H Hin.
  apply bind_inr in H as [_ [_ H]].
  apply bind_inr in H as [gpus [_ H]].
  apply bind_inr in H as [ms' [_ [= <-]]].
  apply in_or_app. now left.
Qed.

(** ** The summary *)

Lemma prefix_append (a b : string) : String.prefix a (a ++ b) = true.
Proof.
  induction a as [| c a IH]; simpl.
  - now destruct b.
  - destruct (Ascii.ascii_dec c c); [exact IH | congruence].
Qed.

Lemma occurs_prefix (x y : string) :
  String.prefix x y = true -> Py.occurs x y = true.
Proof. intros H. destruct y; simpl in *; rewrite H; reflexivity. Qed.

Lemma occurs_append_l (x b : string) : Py.occurs x (x ++ b) = true.
Proof. apply occurs_prefix, prefix_append. Qed.

Lemma occurs_append_r (x a b : string) :
  Py.occurs x b = true -> Py.occurs x (a ++ b) = true.
Proof.
  intros H. induction a as [| c a IH]; simpl; [exact H |].
  rewrite IH. apply orb_true_r.
Qed.

Lemma occurs_refl (x : string) : Py.occurs x x = true.
Proof.
  assert (E : (x ++ "")%string = x) by (induction x; simpl; congruence).
  rewrite <- E at 2. apply occurs_append_l.
Qed.

(** A string of a list occurs in the list joined by a separator. *)
Lemma occurs_concat (sep x : string) (l : list string) :
  In x l -> Py.occurs x (String.concat sep l) = true.
Proof.
  induction l as [| y l IH]; [intros [] |].
  intros [-> | Hin]; simpl.
  - destruct l; [apply occurs_refl | apply occurs_append_l].
  - destruct l as [| z l]; [destruct Hin |].
    apply occurs_append_r, occurs_append_r, IH, Hin.
Qed.


(** Iterating over the results reorders them, no more. *)
Lemma iter_permutation (results : list Result) :
  Permutation (Results.iter results) results.
Proof.
  unfold Results.iter. induction results as [| r rs IH]; [reflexivity |].
  simpl in *. rewrite !app_nil_r in *.
  unfold Results.state_eqb at 1 2 3 4.
  destruct (state r); simpl.
  - (* Ok *)
    rewrite !app_assoc. etransitivity; [symmetry; apply Permutation_middle |].
    constructor. rewrite <- !app_assoc. exact IH.
  - (* Warn *)
    rewrite (app_assoc (filter _ rs) (filter _ rs) (r :: _)).
    etransitivity; [symmetry; apply Permutation_middle |].
    constructor. rewrite <- !app_assoc. exact IH.
  - (* Critical *)
    etransitivity; [symmetry; apply Permutation_middle |].
    constructor. exact IH.
  - (* Unknown *)
    constructor. exact IH.
Qed.


Lemma problem_in (results : list Result) (r : Result) :
  In r results -> state r <> Ok ->
  Py.occurs (TrexSummary.line r) (TrexSummary.problem results) = true.
Proof.
  intros Hin Hs. unfold TrexSummary.problem.
  apply occurs_concat, in_map, filter_In. split.
  - apply (Permutation_in r (Permutation_sym
                                           (iter_permutation results))), Hin.
  - destruct (state r); [congruence | reflexivity ..].
Qed.













(** ** The success flag *)








(** ** The exit codes of the program *)

(** Every run ends with an exit code from 0 to 3, and a check that was
    carried out on at least one metric ends with 0, 1 or 2: no context
    of the program answers UNKNOWN, which is left to the runs that fail
    and to the checks without any metric. *)
Theorem exit_code_range (w : World) (args : Args) :
  0 <= exit_code (main w args) <= 3
  /\ (forall r rs, main w args = Checked (r :: rs) ->
                   exit_code (main w args) <= 2).
Proof.
  split.
  - destruct (main w args) as [| rs |] eqn:Hrun; simpl; try lia.
    rewrite exitcode_state. destruct (Check.state rs); simpl; lia.
  - intros r rs Hrun. rewrite Hrun; simpl. rewrite exitcode_state.
    destruct (main_checked w args (r :: rs) Hrun) as [cs [ms [_ [_ He]]]].
    destruct (state_attained (r :: rs)) as [r' [Hin <-]]; [discriminate |].
    exact (evaluate_metrics_known cs ms (r :: rs) He r' Hin).
Qed.

(** ** Alerts of the below-threshold evaluator *)

Lemma truth_opt_some (b : option Z) :
  Py.truth_opt b = true -> exists z, b = Some z /\ z <> 0.
Proof.
  destruct b as [z |]; simpl; [| discriminate].
  destruct (Z.eqb_spec z 0); [discriminate |]. intros _. now exists z.
Qed.

Lemma below_int (bound : option Z) (v : Z) :
  BelowThresholdContext.below bound (PInt v)
  = inr match bound with
        | Some b =>
            if negb (b =? 0) && (v <=? b)
            then Some (Py.str_int v ++ "<=" ++ Py.str_int b)
            else None
        | None => None
        end.
Proof.
  unfold BelowThresholdContext.below. destruct bound as [b |]; [| reflexivity].
  simpl. destruct (b =? 0); simpl; [reflexivity |].
  destruct (v <=? b); reflexivity.
Qed.

(** Every alert of the below-threshold evaluator is justified: a
    Critical (a Warning) on an int value comes from a critical (warning)
    bound that is set, is not 0 and is at least the value, and the hint
    reads "<value><=<bound>" with that bound; a Warning or an OK means
    the critical bound did not apply, an OK that neither bound did, and
    has no hint.  The result carries the metric it was computed from and
    is never UNKNOWN. *)
Theorem below_alert_sound (self : BelowThresholdContext.t) (m : Metric)
  (v : Z) (r : Result) :
  metric_value m = PInt v ->
  BelowThresholdContext.evaluate self m = inr r ->
  metric r = m
  /\ match state r with
     | Critical =>
         exists c, BelowThresholdContext.critical self = Some c
                   /\ c <> 0 /\ v <= c
                   /\ hint r = Some (Py.str_int v ++ "<=" ++ Py.str_int c)
     | Warn =>
         (exists w, BelowThresholdContext.warning self = Some w
                    /\ w <> 0 /\ v <= w
                    /\ hint r = Some (Py.str_int v ++ "<=" ++ Py.str_int w))
         /\ (forall c, BelowThresholdContext.critical self = Some c ->
                       c = 0 \/ c < v)
     | Ok =>
         hint r = None
         /\ (forall c, BelowThresholdContext.critical self = Some c ->
                       c = 0 \/ c < v)
         /\ (forall w, BelowThresholdContext.warning self = Some w ->
                       w = 0 \/ w < v)
     | Unknown => False
     end.
Proof.
  intros Hv. unfold BelowThresholdContext.evaluate.
  rewrite Hv, !below_int. cbv beta delta [bind ret] iota.
  destruct self as [name w c]; simpl.
  destruct c as [c |].
  - destruct (Z.eqb_spec c 0) as [Hc0 | Hc0]; simpl.
    + destruct w as [w |].
      * destruct (Z.eqb_spec w 0) as [Hw0 | Hw0]; simpl.
        -- intros [= <-]. simpl. repeat split; intros z [= <-]; now left.
        -- destruct (Z.leb_spec v w); intros [= <-]; simpl.
           ++ repeat split.
              ** exists w. repeat split; assumption.
              ** intros z [= <-]. now left.
           ++ repeat split; intros z [= <-]; [now left | now right].
      * intros [= <-]. simpl. repeat split; intros z [= <-]. now left.
    + destruct (Z.leb_spec v c).
      * intros [= <-]. simpl. split; [reflexivity |].
        exists c. repeat split; assumption.
      * destruct w as [w |].
        -- destruct (Z.eqb_spec w 0) as [Hw0 | Hw0]; simpl.
           ++ intros [= <-]. simpl.
              repeat split; intros z [= <-]; [now right | now left].
           ++ destruct (Z.leb_spec v w); intros [= <-]; simpl.
              ** repeat split.
                 --- exists w. repeat split; assumption.
                 --- intros z [= <-]. now right.
              ** repeat split; intros z [= <-]; now right.
        -- intros [= <-]. simpl. repeat split; intros z [= <-]. now right.
  - destruct w as [w |].
    + destruct (Z.eqb_spec w 0) as [Hw0 | Hw0]; simpl.
      * intros [= <-]. simpl. repeat split; intros z [= <-]. now left.
      * destruct (Z.leb_spec v w); intros [= <-]; simpl.
        -- repeat split.
           ++ exists w. repeat split; assumption.
           ++ intros z [=].
        -- repeat split; intros z [= <-]. now right.
    + intros [= <-]. simpl. repeat split; intros z [=].
Qed.

Lemma below_alert_sound_witness :
  let m := mkMetric "uptime" (PInt 30) "uptime" in
  let r := mkResult Warn (Some "30<=60") m in
  metric r = m
  /\ ((exists w, Some 60 = Some w /\ w <> 0 /\ 30 <= w
                 /\ hint r = Some (Py.str_int 30 ++ "<=" ++ Py.str_int w))
      /\ (forall c, Some 10 = Some c -> c = 0 \/ c < 30)).
Proof.
  exact (below_alert_sound
           (BelowThresholdContext.mk "uptime" (Some 60) (Some 10))
           (mkMetric "uptime" (PInt 30) "uptime") 30
           (mkResult Warn (Some "30<=60") (mkMetric "uptime" (PInt 30) "uptime"))
           eq_refl eq_refl).
Defined.

Lemma below_states (self : BelowThresholdContext.t) (m : Metric) (v : Z) :
  metric_value m = PInt v ->
  exists r,
    BelowThresholdContext.evaluate self m = inr r
    /\ code (state r)
       = match BelowThresholdContext.critical self,
               BelowThresholdContext.warning self with
         | Some c, Some w =>
             if negb (c =? 0) && (v <=? c) then 2
             else if negb (w =? 0) && (v <=? w) then 1 else 0
         | Some c, None => if negb (c =? 0) && (v <=? c) then 2 else 0
         | None, Some w => if negb (w =? 0) && (v <=? w) then 1 else 0
         | None, None => 0
         end.
Proof.
  intros Hv. unfold BelowThresholdContext.evaluate.
  rewrite Hv, !below_int. cbv beta delta [bind ret] iota.
  destruct self as [name [w |] [c |]]; simpl;
    repeat match goal with
      | |- context [negb (?z =? 0) && (?a <=? ?b)] =>
          destruct (negb (z =? 0) && (a <=? b)); simpl
      end;
    eexists; split; reflexivity.
Qed.

(** The below-threshold evaluator is monotone: under the same bounds a
    lower int value is never judged less severe than a higher one. *)
Theorem below_monotone (self : BelowThresholdContext.t) (m1 m2 : Metric)
  (v1 v2 : Z) (r1 r2 : Result) :
  metric_value m1 = PInt v1 ->
  metric_value m2 = PInt v2 ->
  v1 <= v2 ->
  BelowThresholdContext.evaluate self m1 = inr r1 ->
  BelowThresholdContext.evaluate self m2 = inr r2 ->
  code (state r2) <= code (state r1).
Proof.
  intros H1 H2 Hle E1 E2.
  destruct (below_states self m1 v1 H1) as [r1' [E1' S1]].
  destruct (below_states self m2 v2 H2) as [r2' [E2' S2]].
  rewrite E1 in E1'. rewrite E2 in E2'.
  injection E1' as <-. injection E2' as <-.
  rewrite S1, S2.
  destruct (BelowThresholdContext.critical self) as [c |],
    (BelowThresholdContext.warning self) as [w |];
    repeat match goal with
      | |- context [?z =? 0] => destruct (Z.eqb_spec z 0); simpl
      | |- context [?a <=? ?b] => destruct (Z.leb_spec a b); simpl
      end;
    lia.
Qed.

Lemma below_monotone_witness :
  code Warn <= code Critical.
Proof.
  exact (below_monotone
           (BelowThresholdContext.mk "hashrate" (Some 700) (Some 600))
           (mkMetric "hashrate" (PInt 500) "hashrate")
           (mkMetric "hashrate" (PInt 650) "hashrate")
           500 650
           (mkResult Critical (Some "500<=600")
              (mkMetric "hashrate" (PInt 500) "hashrate"))
           (mkResult Warn (Some "650<=700")
              (mkMetric "hashrate" (PInt 650) "hashrate"))
           eq_refl eq_refl ltac:(lia) eq_refl eq_refl).
Defined.

(** The below-threshold evaluator raises only [TypeError], and exactly
    when the value is no number (a string, [None], a list, a dict) and a
    bound that is set and not 0 has it compared; without such a bound a
    value of any type is OK. *)
Theorem below_raises_iff (self : BelowThresholdContext.t) (m : Metric) :
  (forall e, BelowThresholdContext.evaluate self m = inl e -> e = TypeError)
  /\ (BelowThresholdContext.evaluate self m = inl TypeError
      <-> Py.number (metric_value m) = None
          /\ Py.truth_opt (BelowThresholdContext.critical self)
             || Py.truth_opt (BelowThresholdContext.warning self) = true)
  /\ (Py.truth_opt (BelowThresholdContext.critical self) = false ->
      Py.truth_opt (BelowThresholdContext.warning self) = false ->
      BelowThresholdContext.evaluate self m = inr (mkResult Ok None m)).
Proof.
  unfold BelowThresholdContext.evaluate, BelowThresholdContext.below.
  destruct self as [name w c]; simpl.
  destruct (Py.number (metric_value m)) as [[z shown] |];
    destruct c as [c |], w as [w |]; simpl;
    repeat match goal with
      | |- context [?z =? 0] => destruct (z =? 0); simpl
      | |- context [if ?a <=? ?b then _ else _] => destruct (a <=? b); simpl
      end;
    (split; [intros e; try discriminate; now intros [= <-] |]);
    (split; [split; [try discriminate; intros _; split; reflexivity
                    | intros [H1 H2]; try discriminate; reflexivity] |]);
    intros; try discriminate; reflexivity.
Qed.

Lemma below_raises_iff_witness :
  let m := mkMetric "hashrate" (PStr "n/a") "hashrate" in
  BelowThresholdContext.evaluate
    (BelowThresholdContext.mk "hashrate" None (Some 0)) m
  = inr (mkResult Ok None m).
Proof.
  exact (proj2 (proj2 (below_raises_iff
                         (BelowThresholdContext.mk "hashrate" None (Some 0))
                         (mkMetric "hashrate" (PStr "n/a") "hashrate")))
           eq_refl eq_refl).
Defined.

(** ** When the probe returns *)

(** A run whose [try] block raises ends in the handler. *)
Lemma main_raises (w : World) (args : Args) (e : exn) :
  show_version args = false ->
  check w args = inl e ->
  main w args = Failed ("Failed to execute check: " ++ str_exn w e)
  /\ exit_code (main w args) = 3.
Proof.
  intros Hv Hc. unfold main. rewrite Hv, Hc. split; reflexivity.
Qed.

Lemma check_probe_raises (w : World) (args : Args) (e : exn) :
  Trex.probe (requests_get w) (Trex.mk (url args) (timeout args)) = inl e ->
  exists e', check w args = inl e'.
Proof.
  intros Hp. unfold check, Check.run. rewrite Hp.
  destruct (contexts args) as [e' | cs]; simpl; eauto.
Qed.

Lemma probe_data_non_object (data : pyval) :
  is_dict data = false ->
  Trex.probe_data data = inl TypeError
  \/ Trex.probe_data data = inl AttributeError.
Proof.
  destruct data as [| b | z | s | l | d]; simpl; intros H;
    try discriminate; try (now left).
  - unfold Trex.probe_data; cbn [Py.contains bind ret Py.getitem].
    destruct (Py.occurs "hashrate" s); [now left |].
    destruct (Py.occurs "success" s); [now left |].
    destruct (Py.occurs "paused" s); [now left |].
    destruct (Py.occurs "uptime" s); [now left | now right].
  - unfold Trex.probe_data; cbn [Py.contains bind ret Py.getitem].
    destruct (existsb (Py.is_str "hashrate") l); [now left |].
    destruct (existsb (Py.is_str "success") l); [now left |].
    destruct (existsb (Py.is_str "paused") l); [now left |].
    destruct (existsb (Py.is_str "uptime") l); [now left | now right].
Qed.

(** A response whose JSON text is no object (a list, a string, a
    number, a boolean or null) makes the probe raise, [TypeError] or
    [AttributeError], and the run ends with the exit code 3. *)
Theorem probe_non_object (w : World) (args : Args) (status_code : Z)
  (data : pyval) :
  is_dict data = false ->
  (Trex.probe_data data = inl TypeError
   \/ Trex.probe_data data = inl AttributeError)
  /\ (show_version args = false ->
      requests_get w (url args ++ "/summary") (timeout args)
      = Trex.Response status_code (Some data) ->
      exit_code (main w args) = 3).
Proof.
  intros Hd. split; [exact (probe_data_non_object data Hd) |].
  intros Hv Hget.
  assert (Hp : exists e,
             Trex.probe (requests_get w) (Trex.mk (url args) (timeout args))
             = inl e).
  { unfold Trex.probe; simpl. rewrite Hget.
    destruct (Trex.raise_for_status status_code); simpl; [eauto |].
    destruct (probe_data_non_object data Hd) as [-> | ->]; eauto. }
  destruct Hp as [e Hp].
  destruct (check_probe_raises w args e Hp) as [e' Hc].
  exact (proj2 (main_raises w args e' Hv Hc)).
Qed.

Lemma probe_non_object_witness :
  exit_code (main (answering (Trex.Response 200 (Some (PList [])))) default_args)
  = 3.
Proof.
  exact (proj2 (probe_non_object
                  (answering (Trex.Response 200 (Some (PList []))))
                  default_args 200 (PList []) eq_refl)
           eq_refl eq_refl).
Defined.

(** An uptime that is no number (a string, null, a list, an object)
    makes the probe of a JSON object raise [TypeError], whatever the
    other fields and the bounds of the uptime are: the probe compares the
    uptime with 1 to word its log message. *)
Theorem probe_uptime_type_error (d : list (string * pyval)) (uptime : pyval) :
  Py.lookup "uptime" d = Some uptime ->
  Py.number uptime = None ->
  Trex.probe_data (PDict d) = inl TypeError.
Proof.
  intros Hu Hn. rewrite probe_data_dict, Hu. unfold Py.gt. rewrite Hn.
  reflexivity.
Qed.

Lemma probe_uptime_type_error_witness :
  Trex.probe_data (PDict [("uptime", PStr "1h"); ("gpus", PList [])])
  = inl TypeError.
Proof.
  exact (probe_uptime_type_error
           [("uptime", PStr "1h"); ("gpus", PList [])] (PStr "1h")
           eq_refl eq_refl).
Defined.

Lemma probe_gpu_returns (acc : list Metric) (gpu : pyval) (ms : list Metric) :
  Trex.probe_gpu acc gpu = inr ms -> plain_gpu gpu = true.
Proof.
  destruct gpu as [| | | | | g]; try discriminate.
  unfold Trex.probe_gpu, Py.getitem, Py.contains; simpl.
  destruct (Py.lookup "name" g); [| discriminate].
  destruct (Py.lookup "gpu_id" g); [| discriminate]. simpl.
  destruct (Py.lookup "memory_temperature" g); [| reflexivity].
  destruct (Py.lookup "temperature" g); discriminate.
Qed.

Lemma probe_gpus_returns (gpus : list pyval) (acc ms : list Metric) :
  Trex.probe_gpus acc gpus = inr ms -> forallb plain_gpu gpus = true.
Proof.
  revert acc. induction gpus as [| gpu rest IH]; intros acc; simpl;
    [reflexivity |].
  intros H. apply bind_inr in H as [ms' [Hg Hr]].
  rewrite (probe_gpu_returns acc gpu ms' Hg). exact (IH ms' Hr).
Qed.

(** When [gpus] is a list, the probe of a JSON object returns exactly
    when every record of the list is plain (a JSON object with [name]
    and [gpu_id] and without [memory_temperature]) and the uptime, if
    there is one, is a number; in every other case it raises. *)
Theorem probe_returns_iff_plain (d : list (string * pyval)) (gpus : list pyval) :
  Py.lookup "gpus" d = Some (PList gpus) ->
  (exists ms, Trex.probe_data (PDict d) = inr ms)
  <-> forallb plain_gpu gpus = true /\ plain_uptime d = true.
Proof.
  intros Hg. rewrite probe_data_dict, Hg. simpl Py.iter. split.
  - intros [ms H].
    apply bind_inr in H as [b [Hu H]].
    rewrite bind_ret in H.
    apply bind_inr in H as [ms' [Hp _]].
    split; [exact (probe_gpus_returns gpus [] ms' Hp) |].
    unfold plain_uptime. destruct (Py.lookup "uptime" d) as [u |];
      [| reflexivity].
    unfold Py.gt in Hu. destruct (Py.number u); [reflexivity | discriminate].
  - intros [Hp Hu]. rewrite bind_ret, (probe_gpus_plain gpus Hp).
    unfold plain_uptime in Hu.
    destruct (Py.lookup "uptime" d) as [u |]; [| simpl; eauto].
    unfold Py.gt. destruct (Py.number u) as [[z s] |]; [| discriminate].
    simpl; eauto.
Qed.

Lemma probe_returns_iff_plain_witness :
  forallb plain_gpu [PDict [("name", PStr "GPU"); ("gpu_id", PInt 0)]] = true
  /\ plain_uptime
       [("gpus", PList [PDict [("name", PStr "GPU"); ("gpu_id", PInt 0)]])]
     = true.
Proof.
  exact (proj1 (probe_returns_iff_plain
                  [("gpus", PList [PDict [("name", PStr "GPU"); ("gpu_id", PInt 0)]])]
                  [PDict [("name", PStr "GPU"); ("gpu_id", PInt 0)]]
                  eq_refl)
           (ex_intro _ [] eq_refl)).
Defined.

(** ** The metrics of a probe and their contexts *)

Lemma field_shape d k f (m : Metric) :
  In m (field d k f) ->
  metric_name m = k /\ metric_context m = k
  /\ exists v, Py.lookup k d = Some v /\ metric_value m = f v.
Proof.
  unfold field. destruct (Py.lookup k d) as [v |]; [| intros []].
  intros [<- | []]. simpl. repeat split. now exists v.
Qed.

Lemma probe_gpu_contexts (gpu : pyval) (ms : list Metric) :
  Trex.probe_gpu [] gpu = inr ms ->
  forall m, In m ms -> metric_context m = "temperature".
Proof.
  unfold Trex.probe_gpu. intros H.
  apply bind_inr in H as [name [_ H]].
  apply bind_inr in H as [id [_ H]].
  apply bind_inr in H as [has_t [_ H]].
  apply bind_inr in H as [ms' [Ht H]].
  apply bind_inr in H as [has_m [_ H]].
  assert (Hms : ms = ms').
  { destruct has_m; [| now injection H].
    destruct (Py.getitem gpu "memory_temperature"); discriminate. }
  subst ms'. destruct has_t.
  - apply bind_inr in Ht as [t [_ [= <-]]].
    intros m [<- | []]. reflexivity.
  - injection Ht as <-. intros m [].
Qed.

Lemma probe_gpus_contexts (gpus : list pyval) (ms : list Metric) :
  Trex.probe_gpus [] gpus = inr ms ->
  forall m, In m ms -> metric_context m = "temperature".
Proof.
  revert ms. induction gpus as [| gpu rest IH]; intros ms; simpl.
  - intros [= <-] m [].
  - intros H. apply bind_inr in H as [ms1 [H1 H]].
    rewrite probe_gpus_acc in H. apply bind_inr in H as [ms2 [H2 [= <-]]].
    intros m Hin. apply in_app_or in Hin as [Hin | Hin].
    + apply (probe_gpu_contexts gpu ms1 H1 m Hin).
    + apply (IH ms2 H2 m Hin).
Qed.

(** What a probe that returns is made of. *)
Lemma probe_data_returns (data : pyval) (ms : list Metric) :
  Trex.probe_data data = inr ms ->
  exists d gpus temps,
    data = PDict d
    /\ Trex.probe_gpus [] gpus = inr temps
    /\ ms = (fields d ++ temps)%list.
Proof.
  intros H. destruct (is_dict data) eqn:Hd.
  - destruct data as [| | | | | d]; try discriminate.
    rewrite probe_data_dict in H.
    apply bind_inr in H as [_ [_ H]].
    apply bind_inr in H as [gpus [_ H]].
    apply bind_inr in H as [temps [Hg [= <-]]].
    now exists d, gpus, temps.
  - destruct (probe_data_non_object data Hd) as [E | E];
      rewrite E in H; discriminate.
Qed.

(** The metrics [success] and [paused] of a probe are bools, the truth
    value of the JSON value whatever its type (0, "", null, [] and {}
    are false and every other value is true), and every metric names the
    context of its own name. *)
Theorem probe_flags_are_bools (data : pyval) (ms : list Metric) (m : Metric) :
  Trex.probe_data data = inr ms ->
  In m ms ->
  metric_context m = metric_name m
  /\ (metric_name m = "success" \/ metric_name m = "paused" ->
      exists d v,
        data = PDict d
        /\ Py.lookup (metric_name m) d = Some v
        /\ metric_value m = PBool (Py.truth v)).
Proof.
  intros Hp Hin.
  destruct (probe_data_returns data ms Hp) as [d [gpus [temps [-> [Hg ->]]]]].
  apply in_app_or in Hin as [Hin | Hin].
  - unfold fields in Hin.
    repeat (apply in_app_or in Hin as [Hin | Hin]);
      apply field_shape in Hin as [Hn [Hc [v [Hl Hv]]]];
      (split; [now rewrite Hn, Hc |]);
      rewrite Hn; intros [E | E]; try discriminate;
      exists d, v; repeat split; assumption.
  - rewrite (probe_gpus_names gpus temps Hg m Hin),
      (probe_gpus_contexts gpus temps Hg m Hin).
    split; [reflexivity |]. intros [E | E]; discriminate.
Qed.

Lemma probe_flags_are_bools_witness :
  exists d v,
    PDict [("paused", PInt 0); ("gpus", PList [])] = PDict d
    /\ Py.lookup "paused" d = Some v
    /\ PBool false = PBool (Py.truth v).
Proof.
  exact (proj2 (probe_flags_are_bools
                  (PDict [("paused", PInt 0); ("gpus", PList [])])
                  [mkMetric "paused" (PBool false) "paused"]
                  (mkMetric "paused" (PBool false) "paused")
                  eq_refl (or_introl eq_refl))
           (or_intror eq_refl)).
Defined.

(** The lookup of a context never fails: whatever the command line,
    every metric of a probe finds the context of its name among the
    contexts [main] builds, so no run raises [KeyError] there. *)
Theorem contexts_cover_metrics (args : Args) (cs : list Context) (data : pyval)
  (ms : list Metric) (m : Metric) :
  contexts args = inr cs ->
  Trex.probe_data data = inr ms ->
  In m ms ->
  exists c, Check.context cs (metric_context m) = inr c
            /\ context_name c = metric_name m.
Proof.
  intros Hcs Hp Hin.
  pose proof (probe_data_names data ms m Hp Hin) as Hn.
  destruct (probe_data_returns data ms Hp) as [d [gpus [temps [-> [Hg ->]]]]].
  assert (Hc : metric_context m = metric_name m).
  { apply in_app_or in Hin as [Hin | Hin].
    - unfold fields in Hin.
      repeat (apply in_app_or in Hin as [Hin | Hin]);
        apply field_shape in Hin as [Hn' [Hc' _]]; now rewrite Hn', Hc'.
    - now rewrite (probe_gpus_names gpus temps Hg m Hin),
        (probe_gpus_contexts gpus temps Hg m Hin). }
  rewrite Hc. unfold contexts in Hcs.
  apply bind_inr in Hcs as [t [Ht Hcs]].
  apply bind_inr in Hcs as [mt [Hmt [= <-]]].
  assert (Htn : ScalarContext.name t = "temperature").
  { unfold ScalarContext.new in Ht.
    apply bind_inr in Ht as [? [_ Ht]]. apply bind_inr in Ht as [? [_ Ht]].
    now injection Ht as <-. }
  simpl in Hn.
  destruct Hn as [<- | [<- | [<- | [<- | [<- | []]]]]]; simpl;
    try (eexists; split; reflexivity).
  rewrite Htn; simpl. eexists; split; [reflexivity | exact Htn].
Qed.

Lemma contexts_cover_metrics_witness :
  exists c,
    Check.context
      [Boolean (BooleanContext.mk "success" true false false);
       Boolean (BooleanContext.mk "paused" true false false);
       BelowThreshold (BelowThresholdContext.mk "hashrate" None None);
       BelowThreshold (BelowThresholdContext.mk "uptime" None None);
       Scalar (ScalarContext.mk "temperature"
                 (Range.mk false (Range.Fin 0) (Range.Fin 70))
                 (Range.mk false (Range.Fin 0) (Range.Fin 90)));
       Scalar (ScalarContext.mk "memory_temperature"
                 (Range.mk false (Range.Fin 0) (Range.Fin 90))
                 (Range.mk false (Range.Fin 0) (Range.Fin 110)))]
      "hashrate" = inr c
    /\ context_name c = "hashrate".
Proof.
  exact (contexts_cover_metrics default_args _
           (PDict [("hashrate", PInt 500); ("gpus", PList [])])
           [mkMetric "hashrate" (PInt 500) "hashrate"]
           (mkMetric "hashrate" (PInt 500) "hashrate")
           eq_refl eq_refl (or_introl eq_refl)).
Defined.

(** ** Results and metrics *)

Lemma evaluate_metric (c : Context) (m : Metric) (r : Result) :
  evaluate c m = inr r -> metric r = m.
Proof.
  destruct c as [c | c | c]; simpl.
  - intros [= <-]. unfold BooleanContext.evaluate.
    destruct (negb _); reflexivity.
  - unfold BelowThresholdContext.evaluate. intros H.
    apply bind_inr in H as [[h |] [_ H]].
    + now injection H as <-.
    + apply bind_inr in H as [[h |] [_ H]]; now injection H as <-.
  - unfold ScalarContext.evaluate. intros H.
    apply bind_inr in H as [i [_ H]]. destruct (negb i).
    + now injection H as <-.
    + apply bind_inr in H as [i' [_ H]].
      destruct (negb i'); now injection H as <-.
Qed.

Lemma evaluate_metrics_each (cs : list Context) (ms : list Metric)
  (rs : list Result) :
  Check.evaluate_metrics cs [] ms = inr rs ->
  Forall2 (fun m r => exists c, Check.context cs (metric_context m) = inr c
                                /\ evaluate c m = inr r) ms rs.
Proof.
  revert rs. induction ms as [| m ms IH]; intros rs H.
  - injection H as <-. constructor.
  - rewrite evaluate_metrics_cons in H.
    apply bind_inr in H as [c [Hc H]].
    apply bind_inr in H as [r [Hr H]].
    apply bind_inr in H as [rs' [Hrs [= <-]]].
    constructor; [now exists c | exact (IH rs' Hrs)].
Qed.

Lemma forall2_in_r {A B} (P : A -> B -> Prop) (l : list A) (l' : list B) (b : B) :
  Forall2 P l l' -> In b l' -> exists a, In a l /\ P a b.
Proof.
  induction 1 as [| x y l l' Hxy _ IH]; [intros [] |].
  intros [<- | Hin].
  - exists x. split; [now left | exact Hxy].
  - destruct (IH Hin) as [a [Ha Hp]]. exists a. split; [now right | exact Hp].
Qed.

Lemma evaluate_metrics_map (cs : list Context) (ms : list Metric)
  (rs : list Result) :
  Check.evaluate_metrics cs [] ms = inr rs -> map metric rs = ms.
Proof.
  intros He. pose proof (evaluate_metrics_each cs ms rs He) as HF.
  clear He. induction HF as [| m r ms rs [c [_ Hr]] _ IH]; [reflexivity |].
  simpl. now rewrite (evaluate_metric c m r Hr), IH.
Qed.

(** A check that was carried out has one result for each metric of the
    probe, in the order of the metrics, and each result carries its
    metric: no metric is dropped and none is evaluated twice. *)
Theorem results_follow_metrics (w : World) (args : Args) (rs : list Result) :
  main w args = Checked rs ->
  exists ms,
    Trex.probe (requests_get w) (Trex.mk (url args) (timeout args)) = inr ms
    /\ map metric rs = ms.
Proof.
  intros Hrun.
  destruct (main_checked w args rs Hrun) as [cs [ms [_ [Hp He]]]].
  exists ms. split; [exact Hp | exact (evaluate_metrics_map cs ms rs He)].
Qed.

Lemma results_follow_metrics_witness :
  exists ms,
    Trex.probe
      (requests_get
         (answering (Trex.Response 200
            (Some (PDict [("hashrate", PInt 500); ("gpus", PList [])])))))
      (Trex.mk (url default_args) (timeout default_args)) = inr ms
    /\ map metric
         [mkResult Ok None (mkMetric "hashrate" (PInt 500) "hashrate")] = ms.
Proof.
  exact (results_follow_metrics
           (answering (Trex.Response 200
              (Some (PDict [("hashrate", PInt 500); ("gpus", PList [])]))))
           default_args
           [mkResult Ok None (mkMetric "hashrate" (PInt 500) "hashrate")]
           eq_refl).
Defined.

(** ** The exit code, result by result *)

(** The exit code of a check that was carried out, read off its
    results: 0 when there is a result and every result is OK, 1 when a
    result is a Warning and none is Critical, 2 when a result is
    Critical, 3 when there is no result at all. *)
Theorem exit_code_by_results (w : World) (args : Args) (rs : list Result) :
  main w args = Checked rs ->
  (exit_code (main w args) = 0
   <-> rs <> [] /\ forall r, In r rs -> state r = Ok)
  /\ (exit_code (main w args) = 1
      <-> (exists r, In r rs /\ state r = Warn)
          /\ forall r, In r rs -> state r <> Critical)
  /\ (exit_code (main w args) = 2 <-> exists r, In r rs /\ state r = Critical)
  /\ (exit_code (main w args) = 3 <-> rs = []).
Proof.
  intros Hrun.
  destruct (main_checked w args rs Hrun) as [cs [ms [_ [_ He]]]].
  pose proof (evaluate_metrics_known cs ms rs He) as Hk.
  rewrite Hrun; simpl. rewrite exitcode_state.
  destruct rs as [| r0 rs'].
  { simpl. split; [| split; [| split]]; split; try discriminate.
    - intros [H _]. now contradiction H.
    - intros [[r [[] _]] _].
    - intros [r [[] _]].
    - reflexivity.
    - reflexivity. }
  set (rs := r0 :: rs') in *.
  pose proof (state_upper_bound rs) as Hub.
  destruct (state_attained rs) as [rm [Hin Hm]]; [discriminate |].
  pose proof (Hk rm Hin) as Hkm. rewrite Hm in Hkm.
  assert (Hcode : forall s t, code s = code t -> s = t).
  { intros [] []; simpl; intros; congruence || lia. }
  split; [| split; [| split]]; split.
  - intros H. split; [discriminate |].
    intros r Hr. apply Hcode. specialize (Hub r Hr).
    destruct (state r); simpl in *; lia.
  - intros [_ Hall]. rewrite <- Hm, (Hall rm Hin). reflexivity.
  - intros H. split.
    + exists rm. split; [exact Hin |]. apply Hcode. rewrite Hm. exact H.
    + intros r Hr E. specialize (Hub r Hr). rewrite E in Hub. simpl in Hub. lia.
  - intros [[r [Hr E]] Hnc].
    specialize (Hub r Hr). rewrite E in Hub. simpl in Hub.
    specialize (Hnc rm Hin). rewrite Hm in Hnc.
    destruct (Check.state rs); simpl in *; try lia; congruence.
  - intros H. exists rm. split; [exact Hin |]. apply Hcode. rewrite Hm. exact H.
  - intros [r [Hr E]]. specialize (Hub r Hr). rewrite E in Hub. simpl in Hub. lia.
  - intros H. lia.
  - discriminate.
Qed.

Lemma exit_code_by_results_witness :
  exit_code
    (main (answering (Trex.Response 200
             (Some (PDict [("hashrate", PInt 500); ("gpus", PList [])]))))
       default_args) = 0.
Proof.
  apply (proj2 (proj1 (exit_code_by_results
                         (answering (Trex.Response 200
                            (Some (PDict [("hashrate", PInt 500);
                                          ("gpus", PList [])]))))
                         default_args
                         [mkResult Ok None
                            (mkMetric "hashrate" (PInt 500) "hashrate")]
                         eq_refl))).
  split; [discriminate |]. intros r [<- | []]. reflexivity.
Defined.

(** ** An empty summary *)

Lemma iter_in (results : list Result) (r : Result) :
  In r (Results.iter results) <-> In r results.
Proof.
  split; intros H.
  - exact (Permutation_in r (iter_permutation results) H).
  - exact (Permutation_in r (Permutation_sym (iter_permutation results)) H).
Qed.

Lemma concat_empty (sep x : string) (l : list string) :
  String.concat sep (x :: l) = "" -> x = "".
Proof.
  destruct l as [| y l]; simpl; [auto |].
  destruct x; [reflexivity | discriminate].
Qed.

Lemma line_not_empty (r : Result) : TrexSummary.line r <> "".
Proof.
  unfold TrexSummary.line. destruct (metric_name (metric r)); discriminate.
Qed.

(** The text of [problem] is empty exactly when every result is OK: a
    result that is not OK always leaves its line in the summary. *)
Theorem problem_empty_iff_ok (results : list Result) :
  TrexSummary.problem results = ""
  <-> forall r, In r results -> state r = Ok.
Proof.
  unfold TrexSummary.problem. split.
  - intros H r Hin.
    destruct (filter (fun r => negb (String.eqb (text (state r)) "ok"))
                (Results.iter results)) as [| r' l] eqn:E.
    + assert (Hnot : ~ In r (filter
                               (fun r => negb (String.eqb (text (state r)) "ok"))
                               (Results.iter results)))
        by (rewrite E; intros []).
      destruct (state r) eqn:Hs; [reflexivity | exfalso ..];
        apply Hnot, filter_In;
        (split; [apply (proj2 (iter_in results r)), Hin | now rewrite Hs]).
    + simpl map in H. apply concat_empty in H.
      exfalso. exact (line_not_empty r' H).
  - intros Hall.
    assert (E : filter (fun r => negb (String.eqb (text (state r)) "ok"))
                  (Results.iter results) = []).
    { destruct (filter _ (Results.iter results)) as [| r l] eqn:E;
        [reflexivity |].
      assert (Hin : In r (filter
                            (fun r => negb (String.eqb (text (state r)) "ok"))
                            (Results.iter results)))
        by (rewrite E; now left).
      apply filter_In in Hin as [Hin Hs].
      apply (proj1 (iter_in results r)) in Hin.
      rewrite (Hall r Hin) in Hs. discriminate. }
    rewrite E. reflexivity.
Qed.

(** ** Runs without alerts on the fields *)

Lemma below_quiet (self : BelowThresholdContext.t) (m : Metric) :
  Py.truth_opt (BelowThresholdContext.critical self) = false ->
  Py.truth_opt (BelowThresholdContext.warning self) = false ->
  BelowThresholdContext.evaluate self m = inr (mkResult Ok None m).
Proof.
  unfold BelowThresholdContext.evaluate, BelowThresholdContext.below.
  intros Hc Hw.
  destruct (BelowThresholdContext.critical self) as [c |];
    destruct (BelowThresholdContext.warning self) as [w |];
    try rewrite Hc; try rewrite Hw; reflexivity.
Qed.

(** With a command line that sets no alert on the hashrate, the uptime
    or the pause, only the temperatures can alert: in every check that
    was carried out, the result of every other metric is OK, whatever
    the response holds for it. *)
Theorem only_temperatures_alert (w : World) (args : Args) (rs : list Result)
  (r : Result) :
  quiet args = true ->
  main w args = Checked rs ->
  In r rs ->
  metric_name (metric r) <> "temperature" ->
  state r = Ok.
Proof.
  intros Hq Hrun Hin Hn.
  destruct (main_checked w args rs Hrun) as [cs [ms [Hcs [Hp He]]]].
  destruct (forall2_in_r _ ms rs r (evaluate_metrics_each cs ms rs He) Hin)
    as [m [Hm [c [Hc Hr]]]].
  rewrite (evaluate_metric c m r Hr) in Hn.
  assert (Hd : exists data, Trex.probe_data data = inr ms).
  { unfold Trex.probe in Hp.
    destruct (requests_get w _ _) as [e | status_code body]; [discriminate |].
    apply bind_inr in Hp as [_ [_ Hp]].
    apply bind_inr in Hp as [data [_ Hp]]. now exists data. }
  destruct Hd as [data Hd].
  pose proof (probe_data_names data ms m Hd Hm) as Hnames.
  destruct (probe_data_returns data ms Hd) as [d [gpus [temps [-> [Hg ->]]]]].
  assert (Hctx : metric_context m = metric_name m).
  { apply in_app_or in Hm as [Hm | Hm].
    - unfold fields in Hm.
      repeat (apply in_app_or in Hm as [Hm | Hm]);
        apply field_shape in Hm as [Hn' [Hc' _]]; now rewrite Hn', Hc'.
    - now rewrite (probe_gpus_names gpus temps Hg m Hm),
        (probe_gpus_contexts gpus temps Hg m Hm). }
  rewrite Hctx in Hc.
  destruct (contexts_of_args args cs Hcs) as [Hs [Hpa [Hh Hu]]].
  unfold quiet in Hq.
  repeat (apply andb_prop in Hq as [Hq ?]).
  repeat match goal with
    | H : negb _ = true |- _ => apply negb_true_iff in H
    end.
  simpl in Hnames.
  destruct Hnames as [E | [E | [E | [E | [E | []]]]]]; rewrite <- E in *.
  - rewrite Hh in Hc. injection Hc as <-. simpl in Hr.
    rewrite below_quiet in Hr by assumption. now injection Hr as <-.
  - rewrite Hs in Hc. injection Hc as <-. simpl in Hr. injection Hr as <-.
    unfold BooleanContext.evaluate; simpl. destruct (negb _); reflexivity.
  - rewrite Hpa in Hc. injection Hc as <-. simpl in Hr. injection Hr as <-.
    unfold BooleanContext.evaluate; simpl.
    rewrite H, H0. destruct (negb _); reflexivity.
  - rewrite Hu in Hc. injection Hc as <-. simpl in Hr.
    rewrite below_quiet in Hr by assumption. now injection Hr as <-.
  - congruence.
Qed.

Lemma only_temperatures_alert_witness :
  state (mkResult Ok (Some "paused is not True")
           (mkMetric "paused" (PBool false) "paused")) = Ok.
Proof.
  exact (only_temperatures_alert
           (answering (Trex.Response 200
              (Some (PDict [("paused", PBool false); ("gpus", PList [])]))))
           default_args
           [mkResult Ok (Some "paused is not True")
              (mkMetric "paused" (PBool false) "paused")]
           (mkResult Ok (Some "paused is not True")
              (mkMetric "paused" (PBool false) "paused"))
           eq_refl eq_refl (or_introl eq_refl) ltac:(discriminate)).
Defined.

(** ** Thresholds that cannot be ranges *)

Lemma range_new_raises (spec : Z) :
  (spec < 0 -> Range.new spec = inl ValueError)
  /\ (0 <= spec -> exists r, Range.new spec = inr r).
Proof.
  unfold Range.new. split; intros H.
  - destruct (Z.eqb_spec spec 0); [lia |].
    destruct (Z.gtb_spec 0 spec); [reflexivity | lia].
  - destruct (Z.eqb_spec spec 0); [eauto |].
    destruct (Z.gtb_spec 0 spec); [lia | eauto].
Qed.

(** The contexts of a check cannot be built exactly when one of the
    four temperature thresholds is negative: the scalar context then
    raises [ValueError] inside the [try] block, and every run without
    [--version] ends in the handler with the exit code 3, whatever the
    miner answers. *)
Theorem negative_threshold_fails (w : World) (args : Args) :
  ((exists e, contexts args = inl e)
   <-> temperature_warning args < 0 \/ temperature_critical args < 0
       \/ memory_temperature_warning args < 0
       \/ memory_temperature_critical args < 0)
  /\ (forall e, contexts args = inl e ->
      e = ValueError
      /\ (show_version args = false ->
          main w args
          = Failed ("Failed to execute check: " ++ str_exn w ValueError)
          /\ exit_code (main w args) = 3)).
Proof.
  assert (Hcases :
            (contexts args = inl ValueError
             /\ (temperature_warning args < 0 \/ temperature_critical args < 0
                 \/ memory_temperature_warning args < 0
                 \/ memory_temperature_critical args < 0))
            \/ ((exists cs, contexts args = inr cs)
                /\ 0 <= temperature_warning args
                /\ 0 <= temperature_critical args
                /\ 0 <= memory_temperature_warning args
                /\ 0 <= memory_temperature_critical args)).
  { unfold contexts, ScalarContext.new.
    destruct (Z.lt_ge_cases (temperature_warning args) 0) as [H1 | H1].
    { left. rewrite (proj1 (range_new_raises _) H1). split; [reflexivity | tauto]. }
    destruct (proj2 (range_new_raises _) H1) as [r1 ->].
    destruct (Z.lt_ge_cases (temperature_critical args) 0) as [H2 | H2].
    { left. rewrite (proj1 (range_new_raises _) H2). split; [reflexivity | tauto]. }
    destruct (proj2 (range_new_raises _) H2) as [r2 ->].
    destruct (Z.lt_ge_cases (memory_temperature_warning args) 0) as [H3 | H3].
    { left. rewrite (proj1 (range_new_raises _) H3). split; [reflexivity | tauto]. }
    destruct (proj2 (range_new_raises _) H3) as [r3 ->].
    destruct (Z.lt_ge_cases (memory_temperature_critical args) 0) as [H4 | H4].
    { left. rewrite (proj1 (range_new_raises _) H4). split; [reflexivity | tauto]. }
    destruct (proj2 (range_new_raises _) H4) as [r4 ->].
    right. split; [simpl; eauto | tauto]. }
  split; [split |].
  - intros [e He]. destruct Hcases as [[_ H] | [[cs Hcs] _]]; [exact H |].
    rewrite Hcs in He. discriminate.
  - intros H. destruct Hcases as [[Hc _] | [_ Hpos]]; [eauto | lia].
  - intros e He. destruct Hcases as [[Hc _] | [[cs Hcs] _]].
    + rewrite Hc in He. injection He as <-. split; [reflexivity |].
      intros Hv. apply main_raises; [exact Hv |].
      unfold check. now rewrite Hc.
    + rewrite Hcs in He. discriminate.
Qed.

Lemma negative_threshold_fails_witness :
  let args :=
    mkArgs false "http://127.0.0.1:4067" 3 None None None None false false
      (-5) 90 90 110 in
  main (answering (Trex.NoResponse Timeout)) args
  = Failed "Failed to execute check: error"
  /\ exit_code (main (answering (Trex.NoResponse Timeout)) args) = 3.
Proof.
  exact (proj2 (proj2 (negative_threshold_fails
                         (answering (Trex.NoResponse Timeout))
                         (mkArgs false "http://127.0.0.1:4067" 3
                            None None None None false false (-5) 90 90 110))
                  ValueError eq_refl)
           eq_refl).
Defined.

(** ** What the summary mentions *)

(** The summary mentions every alert: the line of each result that is
    not OK occurs in the text of [problem]. *)
Theorem summary_mentions_alerts (results : list Result) (r : Result) :
  In r results ->
  state r <> Ok ->
  Py.occurs (TrexSummary.line r) (TrexSummary.problem results) = true.
Proof. exact (problem_in results r). Qed.

Lemma summary_mentions_alerts_witness :
  Py.occurs "paused warning: paused is not True"
    (TrexSummary.problem
       [mkResult Ok None (mkMetric "hashrate" (PInt 500) "hashrate");
        mkResult Warn (Some "paused is not True")
          (mkMetric "paused" (PBool false) "paused")]) = true.
Proof.
  exact (summary_mentions_alerts
           [mkResult Ok None (mkMetric "hashrate" (PInt 500) "hashrate");
            mkResult Warn (Some "paused is not True")
              (mkMetric "paused" (PBool false) "paused")]
           (mkResult Warn (Some "paused is not True")
              (mkMetric "paused" (PBool false) "paused"))
           (or_intror (or_introl eq_refl)) ltac:(discriminate)).
Defined.

(** ** The pause, by the truth value of the field *)

Lemma checked_field (w : World) (args : Args) (status_code : Z)
  (d : list (string * pyval)) (rs : list Result) (m : Metric) :
  requests_get w (url args ++ "/summary") (timeout args)
  = Trex.Response status_code (Some (PDict d)) ->
  main w args = Checked rs ->
  In m (fields d) ->
  exists cs c r,
    contexts args = inr cs
    /\ Check.context cs (metric_context m) = inr c
    /\ evaluate c m = inr r /\ In r rs.
Proof.
  intros Hget Hrun Hin.
  destruct (main_checked w args rs Hrun) as [cs [ms [Hcs [Hp He]]]].
  apply (probe_response (requests_get w) (Trex.mk (url args) (timeout args))
           status_code (PDict d) ms Hget) in Hp.
  pose proof (probe_data_fields d ms m Hp Hin) as Hm.
  destruct (evaluate_metrics_in cs ms rs m He Hm) as [c [r [H1 [H2 H3]]]].
  now exists cs, c, r.
Qed.

(** The result of the pause depends on the truth value of the field
    only: in every check that was carried out on a response with a
    [paused] field, a value that is true in Python (true, a number other
    than 0, a string or a container that is not empty) gets the result OK
    without hint whatever the flags are, and a value that is false gets
    the severity of the flags with the hint "paused is not True". *)
Theorem paused_by_truth (w : World) (args : Args) (status_code : Z)
  (d : list (string * pyval)) (rs : list Result) (v : pyval) :
  requests_get w (url args ++ "/summary") (timeout args)
  = Trex.Response status_code (Some (PDict d)) ->
  Py.lookup "paused" d = Some v ->
  main w args = Checked rs ->
  In (mkResult
        (if Py.truth v then Ok
         else if paused_critical args then Critical
         else if paused_warning args then Warn
         else Ok)
        (if Py.truth v then None else Some "paused is not True")
        (mkMetric "paused" (PBool (Py.truth v)) "paused"))
     rs.
Proof.
  intros Hget Hl Hrun.
  assert (Hin : In (mkMetric "paused" (PBool (Py.truth v)) "paused") (fields d)).
  { unfold fields. apply in_or_app; right. apply in_or_app; right.
    apply in_or_app; left. unfold field. rewrite Hl. now left. }
  destruct (checked_field w args status_code d rs _ Hget Hrun Hin)
    as [cs [c [r [Hcs [Hc [Hr Hrs]]]]]].
  destruct (contexts_of_args args cs Hcs) as [_ [Hp _]].
  simpl in Hc. rewrite Hp in Hc. injection Hc as <-.
  simpl in Hr. injection Hr as <-.
  unfold BooleanContext.evaluate in Hrs; simpl in Hrs.
  destruct (Py.truth v); simpl in Hrs; exact Hrs.
Qed.

Lemma paused_by_truth_witness :
  let args :=
    mkArgs false "http://127.0.0.1:4067" 3 None None None None
      false true 70 90 90 110 in
  In (mkResult Critical (Some "paused is not True")
        (mkMetric "paused" (PBool false) "paused"))
     [mkResult Critical (Some "paused is not True")
        (mkMetric "paused" (PBool false) "paused")].
Proof.
  exact (paused_by_truth
           (answering (Trex.Response 200
              (Some (PDict [("paused", PInt 0); ("gpus", PList [])]))))
           (mkArgs false "http://127.0.0.1:4067" 3 None None None None
              false true 70 90 90 110)
           200 [("paused", PInt 0); ("gpus", PList [])]
           [mkResult Critical (Some "paused is not True")
              (mkMetric "paused" (PBool false) "paused")]
           (PInt 0) eq_refl eq_refl eq_refl).
Defined.

(** ** A hashrate that is no number *)

Lemma evaluate_metrics_raises (cs : list Context) (ms : list Metric)
  (m : Metric) (c : Context) (e : exn) :
  In m ms ->
  Check.context cs (metric_context m) = inr c ->
  evaluate c m = inl e ->
  exists e', Check.evaluate_metrics cs [] ms = inl e'.
Proof.
  intros Hin Hc He. induction ms as [| m' ms IH]; [destruct Hin |].
  rewrite evaluate_metrics_cons. destruct Hin as [-> | Hin].
  - rewrite Hc; simpl. rewrite He. simpl. eauto.
  - do 2 (apply bind_raises; intros ?).
    destruct (IH Hin) as [e' ->]. simpl. eauto.
Qed.

(** A hashrate that is no number (null, a string, a list, an object)
    under a hashrate bound that is set and not 0 never passes: the
    comparison raises, and the run ends with the exit code 3. *)
Theorem hashrate_not_a_number (w : World) (args : Args) (status_code : Z)
  (d : list (string * pyval)) (v : pyval) :
  show_version args = false ->
  requests_get w (url args ++ "/summary") (timeout args)
  = Trex.Response status_code (Some (PDict d)) ->
  Py.lookup "hashrate" d = Some v ->
  Py.number v = None ->
  Py.truth_opt (hashrate_critical args)
  || Py.truth_opt (hashrate_warning args) = true ->
  exists e,
    main w args = Failed ("Failed to execute check: " ++ str_exn w e)
    /\ exit_code (main w args) = 3.
Proof.
  intros Hv Hget Hl Hn Hb.
  enough (Hc : exists e, check w args = inl e).
  { destruct Hc as [e Hc]. exists e. exact (main_raises w args e Hv Hc). }
  unfold check, Check.run.
  destruct (contexts args) as [e | cs] eqn:Hcs; simpl; [eauto |].
  destruct (Trex.probe _ _) as [e | ms] eqn:Hp; simpl; [eauto |].
  apply (probe_response (requests_get w) (Trex.mk (url args) (timeout args))
           status_code (PDict d) ms Hget) in Hp.
  assert (Hin : In (mkMetric "hashrate" v "hashrate") ms).
  { apply (probe_data_fields d ms _ Hp). unfold fields, field.
    rewrite Hl. now left. }
  destruct (contexts_of_args args cs Hcs) as [_ [_ [Hh _]]].
  apply (evaluate_metrics_raises cs ms _ _ TypeError Hin Hh).
  simpl. unfold BelowThresholdContext.evaluate, BelowThresholdContext.below.
  simpl. rewrite Hn.
  destruct (hashrate_critical args) as [c |], (hashrate_warning args) as [b |];
    simpl in *;
    repeat match goal with
      | |- context [?z =? 0] => destruct (z =? 0); simpl in *
      end;
    try discriminate; reflexivity.
Qed.

Lemma hashrate_not_a_number_witness :
  let args :=
    mkArgs false "http://127.0.0.1:4067" 3 None (Some 600) None None
      false false 70 90 90 110 in
  let w :=
    answering (Trex.Response 200
      (Some (PDict [("hashrate", PNone); ("gpus", PList [])]))) in
  exists e,
    main w args = Failed ("Failed to execute check: " ++ str_exn w e)
    /\ exit_code (main w args) = 3.
Proof.
  exact (hashrate_not_a_number
           (answering (Trex.Response 200
              (Some (PDict [("hashrate", PNone); ("gpus", PList [])]))))
           (mkArgs false "http://127.0.0.1:4067" 3 None (Some 600) None None
              false false 70 90 90 110)
           200 [("hashrate", PNone); ("gpus", PList [])] PNone
           eq_refl eq_refl eq_refl eq_refl eq_refl).
Defined.

(** ** Bounds of a metric that is absent *)

Lemma evaluate_metrics_ext (cs cs' : list Context) (ms : list Metric) :
  (forall m, In m ms ->
             Check.context cs (metric_context m)
             = Check.context cs' (metric_context m)) ->
  forall acc,
    Check.evaluate_metrics cs acc ms = Check.evaluate_metrics cs' acc ms.
Proof.
  induction ms as [| m ms IH]; intros H acc; simpl; [reflexivity |].
  rewrite <- (H m (or_introl eq_refl)).
  destruct (Check.context cs (metric_context m)) as [e | c]; simpl;
    [reflexivity |].
  destruct (evaluate c m) as [e | r]; simpl; [reflexivity |].
  apply IH. intros m' Hin. apply H. now right.
Qed.

Lemma probe_data_contexts (d : list (string * pyval)) (ms : list Metric)
  (m : Metric) :
  Trex.probe_data (PDict d) = inr ms -> In m ms ->
  metric_context m = "temperature"
  \/ exists v, Py.lookup (metric_context m) d = Some v.
Proof.
  intros Hp Hin.
  destruct (probe_data_returns (PDict d) ms Hp) as [d' [gpus [temps [E [Hg ->]]]]].
  injection E as <-.
  apply in_app_or in Hin as [Hin | Hin].
  - right. unfold fields in Hin.
    repeat (apply in_app_or in Hin as [Hin | Hin]);
      apply field_shape in Hin as [_ [Hc [v [Hl _]]]]; rewrite Hc; now exists v.
  - left. exact (probe_gpus_contexts gpus temps Hg m Hin).
Qed.

(** The bounds of a metric the miner does not report are ignored: on a
    response without [hashrate] the run ends the same way whatever the
    bounds of the hashrate are.  A missing hashrate is no alert. *)
Theorem absent_hashrate_ignores_bounds (w : World) (args : Args)
  (status_code : Z) (d : list (string * pyval)) (warning critical : option Z) :
  requests_get w (url args ++ "/summary") (timeout args)
  = Trex.Response status_code (Some (PDict d)) ->
  Py.lookup "hashrate" d = None ->
  main w (with_hashrate_bounds args warning critical) = main w args.
Proof.
  intros Hget Hl. unfold main, check, Check.run. simpl.
  destruct (show_version args); [reflexivity |].
  unfold contexts; simpl.
  destruct (ScalarContext.new "temperature" _ _) as [e | t]; simpl;
    [reflexivity |].
  destruct (ScalarContext.new "memory_temperature" _ _) as [e | mt]; simpl;
    [reflexivity |].
  destruct (Trex.probe (requests_get w) _) as [e | ms] eqn:Hp; simpl;
    [reflexivity |].
  apply (probe_response (requests_get w) (Trex.mk (url args) (timeout args))
           status_code (PDict d) ms Hget) in Hp.
  rewrite (evaluate_metrics_ext _
             [Boolean (BooleanContext.mk "success" true false false);
              Boolean (BooleanContext.mk "paused" true
                         (paused_warning args) (paused_critical args));
              BelowThreshold (BelowThresholdContext.mk "hashrate"
                                (hashrate_warning args) (hashrate_critical args));
              BelowThreshold (BelowThresholdContext.mk "uptime"
                                (uptime_warning args) (uptime_critical args));
              Scalar t; Scalar mt] ms); [reflexivity |].
  intros m Hin.
  cbn [Check.context context_name BooleanContext.name BelowThresholdContext.name].
  destruct (String.eqb_spec "success" (metric_context m)); [reflexivity |].
  destruct (String.eqb_spec "paused" (metric_context m)); [reflexivity |].
  destruct (String.eqb_spec "hashrate" (metric_context m)) as [E |];
    [| reflexivity].
  exfalso. destruct (probe_data_contexts d ms m Hp Hin) as [Ht | [v Hv]].
  - rewrite <- E in Ht. discriminate.
  - rewrite <- E, Hl in Hv. discriminate.
Qed.

Lemma absent_hashrate_ignores_bounds_witness :
  let w :=
    answering (Trex.Response 200
      (Some (PDict [("uptime", PInt 50); ("gpus", PList [])]))) in
  main w (with_hashrate_bounds default_args (Some 700) (Some 600))
  = main w default_args.
Proof.
  exact (absent_hashrate_ignores_bounds
           (answering (Trex.Response 200
              (Some (PDict [("uptime", PInt 50); ("gpus", PList [])]))))
           default_args 200 [("uptime", PInt 50); ("gpus", PList [])]
           (Some 700) (Some 600) eq_refl eq_refl).
Defined.
